(** * PD gain synthesis for a single joint: [design_pd_with_limits]

    A shallow embedding of [single_joint_PD_design.py]: the core function
    [design_pd_with_limits] and the page [main] that calls it.

    The function is written once, over an interface [PyFloat] that lists the
    operations the source applies to Python floats, each with the outcome it
    has in Python (a value, or an exception).

    - [Binary64] is the program's arithmetic: a float is an IEEE 754 double,
      as CPython implements it.  This instance computes, so the code can be
      run on concrete requests.  [Binary64With] leaves the rounding of
      [x ** 2] open.
    - Statements made for every instance of [PyFloat], or for every instance
      whose [<] and [<=] obey the laws of [PyFloatOrder], hold of doubles in
      particular; they take the returned result as a hypothesis, since a
      call on doubles may raise instead.
    - [Exact] reads a float as a real number.  It is an idealisation, not
      the program: nothing rounds, underflows or overflows in it.  It is
      kept only to show what the guards of the time metrics achieve once
      rounding is set aside. *)

From Stdlib Require Import Floats.
From Stdlib Require Import String.
From Stdlib Require Import ZArith Lia Reals Lra List Bool.
Import ListNotations.

(* A decimal literal of float_scope denotes the nearest double, which is also
   how Python reads it. *)
Set Warnings "-inexact-float".

(** ** Outcomes of a Python call *)

Inductive pyexn : Set :=
| ZeroDivisionError
| ValueError
| OverflowError.

Inductive py (A : Type) : Type :=
| Returns (a : A)
| Raises (e : pyexn).

Arguments Returns {A} a.
Arguments Raises {A} e.

Definition py_bind {A B : Type} (c : py A) (k : A -> py B) : py B :=
  match c with
  | Returns a => k a
  | Raises e => Raises e
  end.

Notation "x <- c ;; k" := (py_bind c (fun x => k))
  (at level 61, c at next level, right associativity).

(** ** The float operations the source uses *)

Class PyFloat : Type := {
  num : Type;
  (* the variables [t_r_actual] and [t_s_actual] are the only ones that can
     hold [float("inf")]; their type is kept apart so that exact arithmetic
     can add that single value to the reals *)
  metric : Type;
  as_metric : num -> metric;
  float_inf : metric;                     (* float("inf") *)
  lit_0 : num;                            (* 0, 0.0 *)
  lit_2 : num;                            (* 2.0 *)
  lit_1_8 : num;                          (* 1.8 *)
  lit_4 : num;                            (* 4.0 *)
  lit_500 : num;                          (* 500.0 *)
  lit_5 : num;                            (* 5.0 *)
  math_pi : num;                          (* math.pi *)
  mul : num -> num -> num;                (* x * y *)
  div : num -> num -> py num;             (* x / y *)
  pow2 : num -> py num;                   (* x ** 2 *)
  math_sqrt : num -> py num;              (* math.sqrt(x) *)
  lt : num -> num -> bool;                (* x < y *)
  le : num -> num -> bool                 (* x <= y *)
}.

Declare Scope py_scope.
Delimit Scope py_scope with py.
Infix "*" := mul : py_scope.
Infix "/" := div : py_scope.
Infix "<?" := lt : py_scope.
Infix "<=?" := le : py_scope.
Notation "x >? y" := (lt y x) (at level 70) : py_scope.

Section Core.
Context {FO : PyFloat}.
Local Open Scope py_scope.

Record PDDesignResult : Type := {
  J : num;
  f_n_des : num;
  zeta_des : num;
  kp_max : option num;
  kd_max : option num;
  omega_n_des : num;
  kp_des : num;
  kd_des : num;
  kp_actual : num;
  kd_actual : num;
  omega_n_actual : num;
  f_n_actual : num;
  zeta_actual : num;
  t_r_actual : metric;
  t_s_actual : metric
}.

(** [min(xs)] on a list: the first smallest element, found with [<];
    an empty list raises ValueError. *)
Definition py_min (xs : list num) : py num :=
  match xs with
  | [] => Raises ValueError
  | x :: rest => Returns (fold_left (fun m y => if y <? m then y else m) rest x)
  end.

(** [None] models Python's [None], both for an absent bound and for the
    value the function returns on a non-positive inertia. *)
Definition design_pd_with_limits
    (J f_n_des zeta_des : num) (kp_max kd_max : option num)
  : py (option PDDesignResult) :=
  if J <=? lit_0 then Returns None else
  let omega_n_des := lit_2 * math_pi * f_n_des in
  sq_des <- pow2 omega_n_des ;;
  let kp_des := J * sq_des in
  let kd_des := lit_2 * zeta_des * J * omega_n_des in
  let omega_n_limits := [omega_n_des] in
  omega_n_limits <-
    match kp_max with
    | Some kp =>
        if kp >? lit_0 then
          q <- kp / J ;;
          omega_n_limit_kp <- math_sqrt q ;;
          Returns (if omega_n_limit_kp >? lit_0
                   then omega_n_limits ++ [omega_n_limit_kp]
                   else omega_n_limits)
        else Returns omega_n_limits
    | None => Returns omega_n_limits
    end ;;
  omega_n_limits <-
    match kd_max with
    | Some kd =>
        if (kd >? lit_0) && (zeta_des >? lit_0) then
          omega_n_limit_kd <- kd / (lit_2 * zeta_des * J) ;;
          Returns (if omega_n_limit_kd >? lit_0
                   then omega_n_limits ++ [omega_n_limit_kd]
                   else omega_n_limits)
        else Returns omega_n_limits
    | None => Returns omega_n_limits
    end ;;
  omega_n_actual <- py_min omega_n_limits ;;
  sq_actual <- pow2 omega_n_actual ;;
  let kp_actual := J * sq_actual in
  let kd_actual := lit_2 * zeta_des * J * omega_n_actual in
  f_n_actual <- omega_n_actual / (lit_2 * math_pi) ;;
  zeta_actual <-
    (if kp_actual >? lit_0 then
       r <- math_sqrt (J * kp_actual) ;;
       kd_actual / (lit_2 * r)
     else Returns lit_0) ;;
  times <-
    (if omega_n_actual >? lit_0 then
       t_r <- lit_1_8 / omega_n_actual ;;
       if zeta_actual >? lit_0 then
         t_s <- lit_4 / (zeta_actual * omega_n_actual) ;;
         Returns (as_metric t_r, as_metric t_s)
       else Returns (as_metric t_r, float_inf)
     else Returns (float_inf, float_inf)) ;;
  Returns (Some
    (Build_PDDesignResult J f_n_des zeta_des kp_max kd_max
       omega_n_des kp_des kd_des kp_actual kd_actual
       omega_n_actual f_n_actual zeta_actual (fst times) (snd times))).

(** A call site may leave [kp_max] and [kd_max] out; the signature then
    supplies [kp_max = 500.0] and [kd_max = 5.0]. *)
Inductive arg (A : Type) : Type :=
| Omitted
| Passed (a : A).

Arguments Omitted {A}.
Arguments Passed {A} a.

Definition arg_or_default {A : Type} (a : arg A) (dflt : A) : A :=
  match a with
  | Omitted => dflt
  | Passed v => v
  end.

Definition call_design_pd_with_limits
    (J f_n_des zeta_des : num) (kp_max kd_max : arg (option num))
  : py (option PDDesignResult) :=
  design_pd_with_limits J f_n_des zeta_des
    (arg_or_default kp_max (Some lit_500))
    (arg_or_default kd_max (Some lit_5)).

End Core.

Arguments Omitted {A}.
Arguments Passed {A} a.

(** ** Binary64: floats as CPython has them *)

Module B64.

Local Open Scope float_scope.

Definition is_zero (x : float) : bool := x =? 0.

(** [float_div] in floatobject.c: a zero divisor raises, anything else is
    the IEEE quotient. *)
Definition div (x y : float) : py float :=
  if is_zero y then Raises ZeroDivisionError else Returns (x / y).

(** [float_pow] at exponent 2: NaN and the infinities are answered without
    calling libm; a finite base whose square overflows raises OverflowError
    (an underflow to zero does not raise).  libm's [pow(x, 2.0)] is taken to
    be the correctly rounded square. *)
Definition pow2 (x : float) : py float :=
  if PrimFloat.is_nan x then Returns x
  else if PrimFloat.is_infinity x then Returns infinity
  else
    let r := x * x in
    if PrimFloat.is_infinity r then Raises OverflowError else Returns r.

(** [math.sqrt]: a NaN result from an argument that is not NaN is a domain
    error. *)
Definition math_sqrt (x : float) : py float :=
  let r := PrimFloat.sqrt x in
  if PrimFloat.is_nan r && negb (PrimFloat.is_nan x)
  then Raises ValueError else Returns r.

Definition math_pi : float := 0x1.921fb54442d18p+1.

(** [lo <= x < hi], the test used to read a printed decimal. *)
Definition between (lo x hi : float) : bool := (lo <=? x) && (x <? hi).

(** The two classes of doubles the zero tests and products depend on. *)
Definition sf_zero (x : spec_float) : Prop :=
  match x with
  | S754_zero _ => True
  | _ => False
  end.

Definition sf_finite (x : spec_float) : Prop :=
  match x with
  | S754_zero _ | S754_finite _ _ _ => True
  | _ => False
  end.

End B64.

#[export] Instance Binary64 : PyFloat := {|
  num := float;
  metric := float;
  as_metric := fun x => x;
  float_inf := infinity;
  lit_0 := 0%float;
  lit_2 := 2%float;
  lit_1_8 := 1.8%float;
  lit_4 := 4%float;
  lit_500 := 500%float;
  lit_5 := 5%float;
  math_pi := B64.math_pi;
  mul := PrimFloat.mul;
  div := B64.div;
  pow2 := B64.pow2;
  math_sqrt := B64.math_sqrt;
  lt := PrimFloat.ltb;
  le := PrimFloat.leb
|}.

(** Doubles with [x ** 2] left open.  [float_pow] hands a finite base to
    libm's [pow], which need not round the square correctly; what is proved
    for every [square] holds however [pow] rounds. *)
Definition Binary64With (square : float -> py float) : PyFloat := {|
  num := float;
  metric := float;
  as_metric := fun x => x;
  float_inf := infinity;
  lit_0 := 0%float;
  lit_2 := 2%float;
  lit_1_8 := 1.8%float;
  lit_4 := 4%float;
  lit_500 := 500%float;
  lit_5 := 5%float;
  math_pi := B64.math_pi;
  mul := PrimFloat.mul;
  div := B64.div;
  pow2 := square;
  math_sqrt := B64.math_sqrt;
  lt := PrimFloat.ltb;
  le := PrimFloat.leb
|}.

(** ** Exact: floats idealised as real numbers *)

Module Ex.

Local Open Scope R_scope.

(** The reals together with the one value [float("inf")]. *)
Inductive Rinf : Type :=
| Fin (r : R)
| Inf.

Definition lt (x y : R) : bool := if Rlt_dec x y then true else false.
Definition le (x y : R) : bool := if Rle_dec x y then true else false.

Definition div (x y : R) : py R :=
  if Req_dec_T y 0 then Raises ZeroDivisionError else Returns (x / y).

(** Nothing overflows in exact arithmetic. *)
Definition pow2 (x : R) : py R := Returns (x * x).

Definition math_sqrt (x : R) : py R :=
  if Rlt_dec x 0 then Raises ValueError else Returns (sqrt x).

End Ex.

#[export] Instance Exact : PyFloat := {|
  num := R;
  metric := Ex.Rinf;
  as_metric := Ex.Fin;
  float_inf := Ex.Inf;
  lit_0 := 0%R;
  lit_2 := 2%R;
  lit_1_8 := 1.8%R;
  lit_4 := 4%R;
  lit_500 := 500%R;
  lit_5 := 5%R;
  math_pi := PI;
  mul := Rmult;
  div := Ex.div;
  pow2 := Ex.pow2;
  math_sqrt := Ex.math_sqrt;
  lt := Ex.lt;
  le := Ex.le
|}.

(** ** The function at the two instances *)

Module ExactModel.

Local Open Scope R_scope.

Definition result : Type := @PDDesignResult Exact.

Definition design : R -> R -> R -> option R -> option R -> py (option result) :=
  @design_pd_with_limits Exact.

(** The frequency the Kp bound admits, when that bound is set and positive. *)
Definition kp_limit (J : R) (kp_max : option R) : option R :=
  match kp_max with
  | Some k => if Rlt_dec 0 k then Some (sqrt (k / J)) else None
  | None => None
  end.

(** The frequency the Kd bound admits, when that bound is set and positive
    and the damping ratio is positive. *)
Definition kd_limit (J zeta : R) (kd_max : option R) : option R :=
  match kd_max with
  | Some k =>
      if Rlt_dec 0 k then
        if Rlt_dec 0 zeta then Some (k / (2 * zeta * J)) else None
      else None
  | None => None
  end.

Definition opt_list (o : option R) : list R :=
  match o with
  | Some x => [x]
  | None => []
  end.

(** The list [omega_n_limits] as it stands when [min] is taken. *)
Definition candidates (J f zeta : R) (kp_max kd_max : option R) : list R :=
  (2 * PI * f) :: opt_list (kp_limit J kp_max) ++ opt_list (kd_limit J zeta kd_max).

Definition cap (lim : option R) (w : R) : R :=
  match lim with
  | Some l => if Rlt_dec l w then l else w
  | None => w
  end.

Definition omega_capped (J f zeta : R) (kp_max kd_max : option R) : R :=
  cap (kd_limit J zeta kd_max) (cap (kp_limit J kp_max) (2 * PI * f)).

Definition zeta_recomputed (zeta wa : R) : R :=
  if Rlt_dec 0 wa then zeta else if Rlt_dec wa 0 then - zeta else 0.

(** What the function returns for a positive inertia, in closed form
    (theorem [design_value] below). *)
Definition value (J f zeta : R) (kp_max kd_max : option R) : result :=
  let w := 2 * PI * f in
  let wa := omega_capped J f zeta kp_max kd_max in
  let za := zeta_recomputed zeta wa in
  @Build_PDDesignResult Exact J f zeta kp_max kd_max
    w (J * (w * w)) (2 * zeta * J * w)
    (J * (wa * wa)) (2 * zeta * J * wa)
    wa (wa / (2 * PI)) za
    (if Rlt_dec 0 wa then Ex.Fin (1.8 / wa) else Ex.Inf)
    (if Rlt_dec 0 wa then
       if Rlt_dec 0 za then Ex.Fin (4 / (za * wa)) else Ex.Inf
     else Ex.Inf).

End ExactModel.

Module Binary64Model.

Local Open Scope float_scope.

Definition result : Type := @PDDesignResult Binary64.

Definition design
  : float -> float -> float -> option float -> option float -> py (option result) :=
  @design_pd_with_limits Binary64.

End Binary64Model.

(** ** The page: [ACTUATORS] and [main]

    [main] is the Streamlit page that calls [design_pd_with_limits].  The
    values its sidebar widgets return are the parameter [sidebar]; every
    Streamlit call that is handed a number is recorded as an [event] carrying
    that number and the precision of its format string, in the order of the
    source.  Rendering itself, and the calls that only print fixed text
    (titles, sub-headers, rules, the formula notes), are outside the model. *)

Class PyFloatUI (FO : PyFloat) : Type := {
  lit_1000 : num;                         (* 1000 *)
  lit_12 : num;                           (* 12.0 *)
  lit_1_5 : num;                          (* 1.5 *)
  lit_0_0231825 : num;                    (* 0.0231825 *)
  lit_0_0415820 : num;                    (* 0.0415820 *)
  lit_0_0390686 : num;                    (* 0.0390686 *)
  lit_0_0596423 : num;                    (* 0.0596423 *)
  lit_0_0753178 : num;                    (* 0.0753178 *)
  metric_mul_1000 : metric -> metric      (* t * 1000, t a time metric *)
}.

Section Page.
Context {FO : PyFloat} {UI : PyFloatUI FO}.
Local Open Scope py_scope.

(** A dict literal keeps its insertion order, which [list(d.keys())]
    shows. *)
Definition ACTUATORS : list (String.string * num) :=
  [ ("4310"%string, lit_0_0231825);
    ("4315"%string, lit_0_0415820);
    ("6408"%string, lit_0_0390686);
    ("8112"%string, lit_0_0596423);
    ("8116"%string, lit_0_0753178) ].

Definition dict_keys {V : Type} (d : list (String.string * V))
  : list String.string :=
  map fst d.

(** [d[k]]; [None] stands for KeyError. *)
Fixpoint dict_get {V : Type} (d : list (String.string * V))
    (k : String.string) : option V :=
  match d with
  | [] => None
  | (k', v) :: rest => if String.eqb k k' then Some v else dict_get rest k
  end.

(** What the widgets of the sidebar return. *)
Record sidebar : Type := {
  selected_model : String.string;
  J_input : num;
  f_n_input : num;
  zeta_input : num;
  kp_max_input : num;
  kd_max_input : num
}.

(** The sidebar of a page nobody has touched: the select box stands at
    [index=2] of [list(ACTUATORS.keys())], the inertia field shows
    [ACTUATORS[selected_model]], and the other fields show their [value=]. *)
Definition untouched_sidebar : option sidebar :=
  match nth_error (dict_keys ACTUATORS) 2 with
  | Some model =>
      match dict_get ACTUATORS model with
      | Some default_J =>
          Some (Build_sidebar model default_J lit_12 lit_1_5 lit_500 lit_5)
      | None => None
      end
  | None => None
  end.

(** A number on its way to the page. *)
Inductive shown : Type :=
| Fixed (digits : nat) (x : num)           (* f"{x:.3f}" and the like *)
| FixedMetric (digits : nat) (t : metric)  (* the same, for a time metric *)
| Str (x : num).                           (* f"{x}" *)

Inductive label : Set :=
| RecommendedKp
| RecommendedKd
| ActualFrequencyHz
| RiseTimeMs.

Inductive event : Type :=
| Metric (l : label) (value : shown) (delta : option shown)   (* st.metric *)
| Warning (f_n_des f_n_actual : shown)                        (* st.warning *)
| Success                                                     (* st.success *)
| Table (theory actual : list shown).                         (* st.table *)

(** A run of the page: what was put on it, and how the run ended. *)
Definition ui (A : Type) : Type := (list event * py A)%type.

Definition ui_ret {A : Type} (a : A) : ui A := ([], Returns a).

Definition ui_bind {A B : Type} (c : ui A) (k : A -> ui B) : ui B :=
  let (shown_so_far, outcome) := c in
  match outcome with
  | Returns a => let (more, outcome') := k a in (shown_so_far ++ more, outcome')
  | Raises e => (shown_so_far, Raises e)
  end.

Definition emit (e : event) : ui unit := ([e], Returns tt).

Definition lift {A : Type} (c : py A) : ui A := ([], c).

Notation "x <~ c ;; k" := (ui_bind c (fun x => k))
  (at level 61, c at next level, right associativity).
Notation "c ;;; k" := (ui_bind c (fun _ => k))
  (at level 61, right associativity).

Definition is_limited (res : PDDesignResult) : bool :=
  (kp_actual res <? kp_des res) || (kd_actual res <? kd_des res).

Definition main (s : sidebar) : ui unit :=
  res <~ lift (design_pd_with_limits (J_input s) (f_n_input s) (zeta_input s)
                 (Some (kp_max_input s)) (Some (kd_max_input s))) ;;
  match res with
  | None => ui_ret tt
  | Some res =>
      let is_limited := is_limited res in
      emit (Metric RecommendedKp (Fixed 3 (kp_actual res))
              (if is_limited then Some (Fixed 3 (kp_des res)) else None)) ;;;
      emit (Metric RecommendedKd (Fixed 3 (kd_actual res))
              (if is_limited then Some (Fixed 3 (kd_des res)) else None)) ;;;
      emit (Metric ActualFrequencyHz (Fixed 2 (f_n_actual res))
              (if is_limited then Some (Fixed 2 (f_n_des res)) else None)) ;;;
      emit (Metric RiseTimeMs
              (FixedMetric 1 (metric_mul_1000 (t_r_actual res))) None) ;;;
      emit (if is_limited
            then Warning (Str (f_n_des res)) (Fixed 2 (f_n_actual res))
            else Success) ;;;
      t_r_des <~ lift (lit_1_8 / omega_n_des res) ;;
      t_s_des <~ lift (lit_4 / (zeta_des res * omega_n_des res)) ;;
      emit (Table
              [ Fixed 3 (f_n_des res);
                Fixed 3 (omega_n_des res);
                Fixed 3 (zeta_des res);
                Fixed 3 (kp_des res);
                Fixed 3 (kd_des res);
                Fixed 1 (t_r_des * lit_1000);
                Fixed 1 (t_s_des * lit_1000) ]
              [ Fixed 3 (f_n_actual res);
                Fixed 3 (omega_n_actual res);
                Fixed 3 (zeta_actual res);
                Fixed 3 (kp_actual res);
                Fixed 3 (kd_actual res);
                FixedMetric 1 (metric_mul_1000 (t_r_actual res));
                FixedMetric 1 (metric_mul_1000 (t_s_actual res)) ])
  end.

(** The two halves of the branch [if res:], for stating what [main] does:
    the four metrics with the message, and the table. *)
Definition result_head (res : PDDesignResult) : list event :=
  [ Metric RecommendedKp (Fixed 3 (kp_actual res))
      (if is_limited res then Some (Fixed 3 (kp_des res)) else None);
    Metric RecommendedKd (Fixed 3 (kd_actual res))
      (if is_limited res then Some (Fixed 3 (kd_des res)) else None);
    Metric ActualFrequencyHz (Fixed 2 (f_n_actual res))
      (if is_limited res then Some (Fixed 2 (f_n_des res)) else None);
    Metric RiseTimeMs (FixedMetric 1 (metric_mul_1000 (t_r_actual res))) None;
    if is_limited res
    then Warning (Str (f_n_des res)) (Fixed 2 (f_n_actual res))
    else Success ].

Definition result_table (res : PDDesignResult) (t_r_des t_s_des : num)
  : event :=
  Table
    [ Fixed 3 (f_n_des res);
      Fixed 3 (omega_n_des res);
      Fixed 3 (zeta_des res);
      Fixed 3 (kp_des res);
      Fixed 3 (kd_des res);
      Fixed 1 (t_r_des * lit_1000);
      Fixed 1 (t_s_des * lit_1000) ]
    [ Fixed 3 (f_n_actual res);
      Fixed 3 (omega_n_actual res);
      Fixed 3 (zeta_actual res);
      Fixed 3 (kp_actual res);
      Fixed 3 (kd_actual res);
      FixedMetric 1 (metric_mul_1000 (t_r_actual res));
      FixedMetric 1 (metric_mul_1000 (t_s_actual res)) ].

Definition is_table (e : event) : Prop :=
  match e with
  | Table _ _ => True
  | _ => False
  end.

End Page.

#[export] Instance Binary64UI : PyFloatUI Binary64 :=
  Build_PyFloatUI Binary64
    1000%float 12%float 1.5%float
    0.0231825%float 0.0415820%float 0.0390686%float
    0.0596423%float 0.0753178%float
    (fun t : float => PrimFloat.mul t 1000%float).


Definition Binary64UIWith (square : float -> py float)
  : PyFloatUI (Binary64With square) :=
  Build_PyFloatUI (Binary64With square)
    1000%float 12%float 1.5%float
    0.0231825%float 0.0415820%float 0.0390686%float
    0.0596423%float 0.0753178%float
    (fun t : float => PrimFloat.mul t 1000%float).

Module Binary64Page.

Definition sidebar : Type := @sidebar Binary64.
Definition event : Type := @event Binary64.

Definition main : sidebar -> @ui Binary64 unit := @main Binary64 Binary64UI.

Definition ACTUATORS : list (String.string * float) :=
  @ACTUATORS Binary64 Binary64UI.

End Binary64Page.

(** ** Vocabulary for the runs of [design_pd_with_limits]

    The pieces of the function a statement has to name: the candidates the
    two bound branches append, and the part of the body that follows
    [min]. *)

Section Run.
Context {FO : PyFloat}.
Local Open Scope py_scope.

(** The frequency the Kp branch appends (line 62): [kp_max] is set and
    passes [> 0], and [sqrt(kp_max / J)] passes [> 0]. *)
Definition kp_candidate (J : num) (kp_max : option num) (c : num) : Prop :=
  exists k q,
    kp_max = Some k /\ lt lit_0 k = true /\
    div k J = Returns q /\ math_sqrt q = Returns c /\ lt lit_0 c = true.

(** The frequency the Kd branch appends (line 68): [kd_max] is set and
    passes [> 0], [zeta_des] passes [> 0], and
    [kd_max / (2.0 * zeta_des * J)] passes [> 0]. *)
Definition kd_candidate (J zeta_des : num) (kd_max : option num) (c : num)
  : Prop :=
  exists k,
    kd_max = Some k /\ lt lit_0 k = true /\ lt lit_0 zeta_des = true /\
    div k (lit_2 * zeta_des * J) = Returns c /\ lt lit_0 c = true.

(** A bound that is [None] or fails [> 0] (so also a NaN bound). *)
Definition bound_off (b : option num) : Prop :=
  match b with
  | None => True
  | Some k => lt lit_0 k = false
  end.

(** Lines 59-62 and 65-68, as functions of the list built so far. *)
Definition kp_stage (J : num) (kp_max : option num)
    (omega_n_limits : list num) : py (list num) :=
  match kp_max with
  | Some kp =>
      if kp >? lit_0 then
        q <- kp / J ;;
        omega_n_limit_kp <- math_sqrt q ;;
        Returns (if omega_n_limit_kp >? lit_0
                 then omega_n_limits ++ [omega_n_limit_kp]
                 else omega_n_limits)
      else Returns omega_n_limits
  | None => Returns omega_n_limits
  end.

Definition kd_stage (J zeta_des : num) (kd_max : option num)
    (omega_n_limits : list num) : py (list num) :=
  match kd_max with
  | Some kd =>
      if (kd >? lit_0) && (zeta_des >? lit_0) then
        omega_n_limit_kd <- kd / (lit_2 * zeta_des * J) ;;
        Returns (if omega_n_limit_kd >? lit_0
                 then omega_n_limits ++ [omega_n_limit_kd]
                 else omega_n_limits)
      else Returns omega_n_limits
  | None => Returns omega_n_limits
  end.

(** Lines 73-89: everything computed from [omega_n_actual]. *)
Record actual : Type := {
  a_kp : num;
  a_kd : num;
  a_f_n : num;
  a_zeta : num;
  a_t_r : metric;
  a_t_s : metric
}.

Definition actual_part (J zeta_des omega_n_actual : num) : py actual :=
  sq_actual <- pow2 omega_n_actual ;;
  let kp_actual := J * sq_actual in
  let kd_actual := lit_2 * zeta_des * J * omega_n_actual in
  f_n_actual <- omega_n_actual / (lit_2 * math_pi) ;;
  zeta_actual <-
    (if kp_actual >? lit_0 then
       r <- math_sqrt (J * kp_actual) ;;
       kd_actual / (lit_2 * r)
     else Returns lit_0) ;;
  times <-
    (if omega_n_actual >? lit_0 then
       t_r <- lit_1_8 / omega_n_actual ;;
       if zeta_actual >? lit_0 then
         t_s <- lit_4 / (zeta_actual * omega_n_actual) ;;
         Returns (as_metric t_r, as_metric t_s)
       else Returns (as_metric t_r, float_inf)
     else Returns (float_inf, float_inf)) ;;
  Returns (Build_actual kp_actual kd_actual f_n_actual zeta_actual
             (fst times) (snd times)).

(** A bound that leaves the theoretical design alone: absent or
    non-positive, or with an admissible frequency that is at least
    omega_n_des. *)
Definition kp_slack (J : num) (kp_max : option num) (omega_n_des : num)
  : Prop :=
  match kp_max with
  | None => True
  | Some k =>
      lt lit_0 k = false \/
      forall q c, div k J = Returns q -> math_sqrt q = Returns c ->
                  le omega_n_des c = true
  end.

Definition kd_slack (J zeta_des : num) (kd_max : option num)
    (omega_n_des : num) : Prop :=
  match kd_max with
  | None => True
  | Some k =>
      lt lit_0 k = false \/
      (lt lit_0 zeta_des = true ->
       forall c, div k (lit_2 * zeta_des * J) = Returns c ->
                 le omega_n_des c = true)
  end.

Definition actual_of (r : PDDesignResult) : actual :=
  Build_actual (kp_actual r) (kd_actual r) (f_n_actual r) (zeta_actual r)
    (t_r_actual r) (t_s_actual r).

(** One step of [min]: the later element wins only if it is [<] the
    minimum so far. *)
Definition pick (m y : num) : num := if lt y m then y else m.

End Run.

(** The laws of [<] and [<=] the statements below rely on.  IEEE doubles
    satisfy them (instance [Binary64Order]); NaN is the value [x] for which
    [x <= x] fails. *)
Class PyFloatOrder (FO : PyFloat) : Prop := {
  lt_irrefl : forall x : num, lt x x = false;
  lt_trans : forall x y z : num,
    lt x y = true -> lt y z = true -> lt x z = true;
  lt_le : forall x y : num, lt x y = true -> le x y = true;
  le_trans : forall x y z : num,
    le x y = true -> le y z = true -> le x z = true;
  le_not_lt : forall x y : num, le x y = true -> lt y x = false;
  not_lt_le : forall x y : num,
    le x x = true -> le y y = true -> lt y x = false -> le x y = true;
  lt_not_nan : forall x y : num,
    lt x y = true -> le x x = true /\ le y y = true
}.

(** * Binary64: the code run on concrete requests *)

Module Binary64Facts.

Import Binary64Model.
Local Open Scope float_scope.

(** C8: scenario A.  With J = 0.0231825, f_n_des = 12, zeta_des = 1.5,
    kp_max = 500 and kd_max = 5 the function returns omega_n_des = 75.398,
    kp_des = 131.8 and kd_des = 5.24 to the printed digits; kd_des exceeds
    kd_max while kp_des is under kp_max; and the clamped design is
    omega_n_actual = 71.9, kp_actual = 119.8, kd_actual = 5.0 (the bound
    itself), f_n_actual = 11.44, zeta_actual = 1.5, t_r_actual = 25.0 ms and
    t_s_actual = 37.1 ms. *)
Theorem scenario_A :
  exists r : result,
    design 0.0231825 12 1.5 (Some 500) (Some 5) = Returns (Some r) /\
    B64.between 75.3975 (omega_n_des r) 75.3985 = true /\
    B64.between 131.75 (kp_des r) 131.85 = true /\
    B64.between 5.235 (kd_des r) 5.245 = true /\
    (5 <? kd_des r) = true /\
    (kp_des r <? 500) = true /\
    B64.between 71.85 (omega_n_actual r) 71.95 = true /\
    B64.between 119.75 (kp_actual r) 119.85 = true /\
    kd_actual r = 5 /\
    B64.between 11.435 (f_n_actual r) 11.445 = true /\
    B64.between 1.4995 (zeta_actual r) 1.5005 = true /\
    B64.between 0.02495 (t_r_actual r) 0.02505 = true /\
    B64.between 0.03705 (t_s_actual r) 0.03715 = true.
Proof.
  eexists. split.
  - vm_compute. reflexivity.
  - vm_compute. repeat split.
Qed.

(** Scenario B of the spec, for comparison: no bound is active and the
    theoretical design comes back unchanged. *)
Example scenario_B :
  exists r : result,
    design 0.0231825 5 1 (Some 500) (Some 5) = Returns (Some r) /\
    kp_actual r = kp_des r /\
    kd_actual r = kd_des r /\
    f_n_actual r = 5 /\
    zeta_actual r = 1.
Proof.
  eexists. split.
  - vm_compute. reflexivity.
  - vm_compute. repeat split.
Qed.

(** C7 does not hold of the code: with J = 1e20, f_n_des = 1e-150 and
    zeta_des = 1e-175 both guards pass (omega_n_actual and zeta_actual are
    positive), their product underflows to 0.0, and 4.0 / 0.0 raises
    ZeroDivisionError. *)
Theorem settling_time_divides_by_zero :
  design 1e20 1e-150 1e-175 (Some 500) (Some 5) = Raises ZeroDivisionError.
Proof. vm_compute. reflexivity. Qed.

(** The values behind that run, by the source's formulas (no bound is
    active at this frequency, so omega_n_actual is omega_n_des). *)
Example settling_time_trace :
  let J := 1e20 in
  let zeta_des := 1e-175 in
  let omega_n_actual := 2 * B64.math_pi * 1e-150 in
  let kp_actual := J * (omega_n_actual * omega_n_actual) in
  let kd_actual := 2 * zeta_des * J * omega_n_actual in
  let zeta_actual := kd_actual / (2 * PrimFloat.sqrt (J * kp_actual)) in
  (0 <? kp_actual) = true /\
  (0 <? omega_n_actual) = true /\
  (0 <? zeta_actual) = true /\
  B64.is_zero (zeta_actual * omega_n_actual) = true.
Proof. vm_compute. repeat split. Qed.

(** C1, as stated, fails: at J = 0 the call raises nothing; it returns
    None. *)
Lemma nonpositive_inertia_raises_nothing :
  design 0 12 1.5 (Some 500) (Some 5) = Returns None /\
  ~ (exists e : pyexn, design 0 12 1.5 (Some 500) (Some 5) = Raises e).
Proof.
  split; [vm_compute; reflexivity|].
  intros [e He]. vm_compute in He. discriminate He.
Qed.

End Binary64Facts.

(** * Any float semantics: the inertia guard *)

Section InertiaGuard.
Context {FO : PyFloat}.

(** C1, amended: whenever [J <= 0] holds, the function returns None,
    whatever f_n_des, zeta_des, kp_max and kd_max are; it raises no
    exception and builds no PDDesignResult. *)
Theorem nonpositive_inertia_returns_None
    (J f_n_des zeta_des : num) (kp_max kd_max : option num) :
  le J lit_0 = true ->
  design_pd_with_limits J f_n_des zeta_des kp_max kd_max = Returns None.
Proof.
  intros H. unfold design_pd_with_limits. rewrite H. reflexivity.
Qed.

End InertiaGuard.

Lemma nonpositive_inertia_returns_None_witness :
  @le Binary64 (-1)%float (@lit_0 Binary64) = true /\
  @design_pd_with_limits Binary64 (-1)%float 12%float 1.5%float
    (Some 500%float) (Some 5%float) = Returns None.
Proof.
  split; [reflexivity|].
  apply (@nonpositive_inertia_returns_None Binary64); reflexivity.
Defined.

(** * Any float semantics: what the control flow alone decides *)

Section AnyFloat.
Context {FO : PyFloat}.

Lemma bind_returns_inv {A B : Type} (c : py A) (k : A -> py B) (v : B) :
  py_bind c k = Returns v -> exists a, c = Returns a /\ k a = Returns v.
Proof.
  destruct c as [a|e]; cbn; [eauto | discriminate].
Qed.

(** Peels the binds off a run that returned. *)
Ltac invert_run H :=
  repeat (apply bind_returns_inv in H;
          let a := fresh "v" in
          let E := fresh "E" in
          destruct H as (a & E & H)).

(** The value [min] returns is an element of its argument. *)
Lemma py_min_In (xs : list num) (m : num) :
  py_min xs = Returns m -> In m xs.
Proof.
  destruct xs as [|x rest]; cbn; [discriminate|].
  intros [= <-]. revert x.
  induction rest as [|y rest IH]; intros x; cbn; [auto|].
  destruct (IH (if lt y x then y else x)) as [H|H]; [|auto].
  rewrite <- H. destruct (lt y x); auto.
Qed.

(** X1: the function returns None exactly when the test [J <= 0]
    succeeds; in every other case it raises or returns a result. *)
Theorem returns_None_iff
    (J f_n_des zeta_des : num) (kp_max kd_max : option num) :
  design_pd_with_limits J f_n_des zeta_des kp_max kd_max = Returns None <->
  le J lit_0 = true.
Proof.
  unfold design_pd_with_limits. split.
  - destruct (le J lit_0); [reflexivity|].
    intros H. cbv zeta in H. invert_run H. discriminate H.
  - intros ->. reflexivity.
Qed.

(** X2: a returned omega_n_actual is never a new value: it is omega_n_des,
    or the frequency computed from a positive kp_max, or the frequency
    computed from a positive kd_max with a positive zeta_des. *)
Theorem omega_n_actual_is_a_candidate
    (J f_n_des zeta_des : num) (kp_max kd_max : option num)
    (r : PDDesignResult) :
  design_pd_with_limits J f_n_des zeta_des kp_max kd_max = Returns (Some r) ->
  omega_n_des r = mul (mul lit_2 math_pi) f_n_des /\
  (omega_n_actual r = omega_n_des r \/
   (exists k q, kp_max = Some k /\ lt lit_0 k = true /\
                div k J = Returns q /\
                math_sqrt q = Returns (omega_n_actual r)) \/
   (exists k, kd_max = Some k /\ lt lit_0 k = true /\
              lt lit_0 zeta_des = true /\
              div k (mul (mul lit_2 zeta_des) J)
                = Returns (omega_n_actual r))).
Proof.
  unfold design_pd_with_limits.
  destruct (le J lit_0); [discriminate|].
  intros H. cbv zeta in H.
  apply bind_returns_inv in H. destruct H as (sq_des & Esq & H).
  apply bind_returns_inv in H. destruct H as (l1 & E1 & H).
  apply bind_returns_inv in H. destruct H as (l2 & E2 & H).
  apply bind_returns_inv in H. destruct H as (wa & Emin & H).
  invert_run H. injection H as <-. cbn.
  split; [reflexivity|].
  apply py_min_In in Emin.
  set (w := mul (mul lit_2 math_pi) f_n_des) in *.
  (* the candidates the Kp stage leaves *)
  assert (H1 : forall c, In c l1 ->
            c = w \/
            exists k q, kp_max = Some k /\ lt lit_0 k = true /\
                        div k J = Returns q /\ math_sqrt q = Returns c).
  { destruct kp_max as [k|].
    - destruct (lt lit_0 k) eqn:Ek.
      + apply bind_returns_inv in E1. destruct E1 as (q & Eq & E1).
        apply bind_returns_inv in E1. destruct E1 as (lim & El & E1).
        injection E1 as <-. intros c Hc.
        destruct (lt lit_0 lim); cbn in Hc.
        * destruct Hc as [<-|[<-|[]]]; [auto|]. right. exists k, q. auto.
        * destruct Hc as [<-|[]]. auto.
      + injection E1 as <-. intros c [<-|[]]. auto.
    - injection E1 as <-. intros c [<-|[]]. auto. }
  (* the candidates the Kd stage adds *)
  assert (H2 : forall c, In c l2 ->
            In c l1 \/
            exists k, kd_max = Some k /\ lt lit_0 k = true /\
                      lt lit_0 zeta_des = true /\
                      div k (mul (mul lit_2 zeta_des) J) = Returns c).
  { destruct kd_max as [k|].
    - destruct (lt lit_0 k) eqn:Ek; cbn in E2.
      + destruct (lt lit_0 zeta_des) eqn:Ez.
        * apply bind_returns_inv in E2. destruct E2 as (lim & El & E2).
          injection E2 as <-. intros c Hc.
          destruct (lt lit_0 lim); [|auto].
          apply in_app_or in Hc. destruct Hc as [Hc|[<-|[]]]; [auto|].
          right. exists k. auto.
        * injection E2 as <-. auto.
      + injection E2 as <-. auto.
    - injection E2 as <-. auto. }
  destruct (H2 wa Emin) as [Hin|Hkd]; [|auto].
  destruct (H1 wa Hin) as [->|Hkp]; auto.
Qed.

(** X3: a returned result whose frequency was not lowered carries the
    theoretical gains themselves, in any arithmetic, doubles included. *)
Theorem same_frequency_same_gains
    (J f_n_des zeta_des : num) (kp_max kd_max : option num)
    (r : PDDesignResult) :
  design_pd_with_limits J f_n_des zeta_des kp_max kd_max = Returns (Some r) ->
  omega_n_actual r = omega_n_des r ->
  kp_actual r = kp_des r /\ kd_actual r = kd_des r.
Proof.
  unfold design_pd_with_limits.
  destruct (le J lit_0); [discriminate|].
  intros H. cbv zeta in H.
  apply bind_returns_inv in H. destruct H as (sq_des & Esq & H).
  apply bind_returns_inv in H. destruct H as (l1 & E1 & H).
  apply bind_returns_inv in H. destruct H as (l2 & E2 & H).
  apply bind_returns_inv in H. destruct H as (wa & Emin & H).
  apply bind_returns_inv in H. destruct H as (sq_actual & Esqa & H).
  invert_run H. injection H as <-. cbn.
  intros ->. rewrite Esq in Esqa. injection Esqa as <-. auto.
Qed.

Context {UI : PyFloatUI FO}.

(** X4: when the test [J <= 0] succeeds the page stays empty: [main] puts
    no result on it, no message either, and ends normally. *)
Theorem main_shows_nothing_for_nonpositive_inertia (s : sidebar) :
  le (J_input s) lit_0 = true ->
  main s = ([], Returns tt).
Proof.
  intros H. unfold main, design_pd_with_limits. rewrite H. reflexivity.
Qed.

End AnyFloat.

(** The theorems above at the doubles of scenarios A and B. *)
Module AtBinary64.

#[local] Existing Instance Binary64 | 0.
#[local] Existing Instance Binary64UI | 0.

Lemma omega_n_actual_is_a_candidate_witness :
  exists r : Binary64Model.result,
    Binary64Model.design 0.0231825 12 1.5 (Some 500%float) (Some 5%float)
      = Returns (Some r) /\
    (omega_n_des r = mul (mul lit_2 math_pi) 12%float /\
     (omega_n_actual r = omega_n_des r \/
      (exists k q, Some 500%float = Some k /\ lt lit_0 k = true /\
                   div k 0.0231825%float = Returns q /\
                   math_sqrt q = Returns (omega_n_actual r)) \/
      (exists k, Some 5%float = Some k /\ lt lit_0 k = true /\
                 lt lit_0 1.5%float = true /\
                 div k (mul (mul lit_2 1.5%float) 0.0231825%float)
                   = Returns (omega_n_actual r)))).
Proof.
  eexists. split.
  - vm_compute. reflexivity.
  - apply (@omega_n_actual_is_a_candidate Binary64 0.0231825%float 12%float
             1.5%float (Some 500%float) (Some 5%float)).
    vm_compute. reflexivity.
Defined.

Lemma same_frequency_same_gains_witness :
  exists r : Binary64Model.result,
    Binary64Model.design 0.0231825 5 1 (Some 500%float) (Some 5%float)
      = Returns (Some r) /\
    omega_n_actual r = omega_n_des r /\
    kp_actual r = kp_des r /\ kd_actual r = kd_des r.
Proof.
  eexists. split; [vm_compute; reflexivity|].
  split; [vm_compute; reflexivity|].
  apply (@same_frequency_same_gains Binary64 0.0231825%float 5%float
           1%float (Some 500%float) (Some 5%float));
    vm_compute; reflexivity.
Defined.

Lemma main_shows_nothing_for_nonpositive_inertia_witness :
  @le Binary64 0%float (@lit_0 Binary64) = true /\
  Binary64Page.main
    (@Build_sidebar Binary64 "6408" 0%float 12%float 1.5%float
       500%float 5%float)
  = ([], Returns tt).
Proof.
  split; [reflexivity|].
  apply (@main_shows_nothing_for_nonpositive_inertia Binary64 Binary64UI).
  reflexivity.
Defined.

End AtBinary64.


(** * The page *)

Section AnyPage.
Context {FO : PyFloat} {UI : PyFloatUI FO}.

(** [main] once [design_pd_with_limits] has returned a result: the head of
    the page is shown, then the two divisions of the table decide. *)
Lemma main_after_design (s : sidebar) (r : PDDesignResult) :
  design_pd_with_limits (J_input s) (f_n_input s) (zeta_input s)
    (Some (kp_max_input s)) (Some (kd_max_input s)) = Returns (Some r) ->
  main s =
  match div lit_1_8 (omega_n_des r) with
  | Raises e => (result_head r, Raises e)
  | Returns t_r_des =>
      match div lit_4 (mul (zeta_des r) (omega_n_des r)) with
      | Raises e => (result_head r, Raises e)
      | Returns t_s_des =>
          (result_head r ++ [result_table r t_r_des t_s_des], Returns tt)
      end
  end.
Proof.
  intros H. unfold main. rewrite H.
  unfold lift, emit, ui_bind, result_head, result_table.
  destruct (div lit_1_8 (omega_n_des r)) as [t_r_des|e]; [|reflexivity].
  destruct (div lit_4 (mul (zeta_des r) (omega_n_des r))) as [t_s_des|e];
    reflexivity.
Qed.

(** X18: [main] does not catch what [design_pd_with_limits] raises: the
    exception ends the run of the page before anything is shown. *)
Theorem main_propagates_design_errors (s : sidebar) (e : pyexn) :
  design_pd_with_limits (J_input s) (f_n_input s) (zeta_input s)
    (Some (kp_max_input s)) (Some (kd_max_input s)) = Raises e ->
  main s = ([], Raises e).
Proof.
  intros H. unfold main. rewrite H. reflexivity.
Qed.

End AnyPage.



(** * The run of [design_pd_with_limits], stage by stage *)

Section RunFacts.
Context {FO : PyFloat}.

(** The function is its stages in sequence. *)
Lemma design_stages (J f_n_des zeta_des : num) (kp_max kd_max : option num) :
  design_pd_with_limits J f_n_des zeta_des kp_max kd_max =
  if le J lit_0 then Returns None else
  let omega_n_des := mul (mul lit_2 math_pi) f_n_des in
  sq_des <- pow2 omega_n_des ;;
  l1 <- kp_stage J kp_max [omega_n_des] ;;
  l2 <- kd_stage J zeta_des kd_max l1 ;;
  omega_n_actual <- py_min l2 ;;
  a <- actual_part J zeta_des omega_n_actual ;;
  Returns (Some
    (Build_PDDesignResult J f_n_des zeta_des kp_max kd_max
       omega_n_des (mul J sq_des)
       (mul (mul (mul lit_2 zeta_des) J) omega_n_des)
       (a_kp a) (a_kd a) omega_n_actual (a_f_n a) (a_zeta a)
       (a_t_r a) (a_t_s a))).
Proof.
  unfold design_pd_with_limits, actual_part.
  destruct (le J lit_0); [reflexivity|]. cbv zeta.
  destruct (pow2 _) as [sq_des|e]; [|reflexivity]. cbn [py_bind].
  fold (kp_stage J kp_max [mul (mul lit_2 math_pi) f_n_des]).
  destruct (kp_stage _ _ _) as [l1|e]; [|reflexivity]. cbn [py_bind].
  fold (kd_stage J zeta_des kd_max l1).
  destruct (kd_stage _ _ _ _) as [l2|e]; [|reflexivity]. cbn [py_bind].
  destruct (py_min l2) as [wa|e]; [|reflexivity]. cbn [py_bind].
  destruct (pow2 wa) as [sq|e]; [|reflexivity]. cbn [py_bind].
  destruct (div wa _) as [fa|e]; [|reflexivity]. cbn [py_bind].
  match goal with
  | |- py_bind ?c _ = _ => destruct c as [za|e]; [|reflexivity]
  end.
  cbn [py_bind].
  match goal with
  | |- py_bind ?c _ = _ => destruct c as [times|e]; reflexivity
  end.
Qed.

(** What the Kp branch leaves: the list, with the Kp candidate appended if
    there is one. *)
Lemma kp_stage_returns (J : num) (kp_max : option num) (l l1 : list num) :
  kp_stage J kp_max l = Returns l1 ->
  exists cs, l1 = l ++ cs /\ forall c, In c cs <-> kp_candidate J kp_max c.
Proof.
  unfold kp_stage, kp_candidate. destruct kp_max as [k|].
  - destruct (lt lit_0 k) eqn:Ek.
    + intros H.
      apply bind_returns_inv in H. destruct H as (q & Eq & H).
      apply bind_returns_inv in H. destruct H as (lim & El & H).
      injection H as <-.
      destruct (lt lit_0 lim) eqn:Elim.
      * exists [lim]. split; [reflexivity|]. intros c. split.
        -- intros [<-|[]]. exists k, q. auto.
        -- intros (k' & q' & [= <-] & _ & Hq & Hs & _).
           rewrite Eq in Hq. injection Hq as <-.
           rewrite El in Hs. injection Hs as <-. left. reflexivity.
      * exists []. split; [now rewrite app_nil_r|]. intros c. split; [intros []|].
        intros (k' & q' & [= <-] & _ & Hq & Hs & Hpos).
        rewrite Eq in Hq. injection Hq as <-.
        rewrite El in Hs. injection Hs as <-. congruence.
    + intros [= <-]. exists []. split; [now rewrite app_nil_r|].
      intros c. split; [intros []|].
      intros (k' & q' & [= <-] & Hk & _). congruence.
  - intros [= <-]. exists []. split; [now rewrite app_nil_r|].
    intros c. split; [intros []|]. intros (k' & q' & Hk & _). discriminate Hk.
Qed.

Lemma kd_stage_returns (J zeta_des : num) (kd_max : option num)
    (l l2 : list num) :
  kd_stage J zeta_des kd_max l = Returns l2 ->
  exists cs, l2 = l ++ cs /\
             forall c, In c cs <-> kd_candidate J zeta_des kd_max c.
Proof.
  unfold kd_stage, kd_candidate. destruct kd_max as [k|].
  - destruct (lt lit_0 k) eqn:Ek; cbn [andb].
    + destruct (lt lit_0 zeta_des) eqn:Ez.
      * intros H.
        apply bind_returns_inv in H. destruct H as (lim & El & H).
        injection H as <-.
        destruct (lt lit_0 lim) eqn:Elim.
        -- exists [lim]. split; [reflexivity|]. intros c. split.
           ++ intros [<-|[]]. exists k. auto.
           ++ intros (k' & [= <-] & _ & _ & Hq & _).
              rewrite El in Hq. injection Hq as <-. left. reflexivity.
        -- exists []. split; [now rewrite app_nil_r|].
           intros c. split; [intros []|].
           intros (k' & [= <-] & _ & _ & Hq & Hpos).
           rewrite El in Hq. injection Hq as <-. congruence.
      * intros [= <-]. exists []. split; [now rewrite app_nil_r|].
        intros c. split; [intros []|].
        intros (k' & _ & _ & Hz & _). congruence.
    + intros [= <-]. exists []. split; [now rewrite app_nil_r|].
      intros c. split; [intros []|].
      intros (k' & [= <-] & Hk & _). congruence.
  - intros [= <-]. exists []. split; [now rewrite app_nil_r|].
    intros c. split; [intros []|]. intros (k' & Hk & _). discriminate Hk.
Qed.

(** A returned result, taken apart: [min] was applied to omega_n_des
    followed by the candidates, and the rest was computed from its value. *)
Lemma design_run (J f_n_des zeta_des : num) (kp_max kd_max : option num)
    (r : PDDesignResult) :
  design_pd_with_limits J f_n_des zeta_des kp_max kd_max = Returns (Some r) ->
  exists sq_des cs,
    le J lit_0 = false /\
    pow2 (mul (mul lit_2 math_pi) f_n_des) = Returns sq_des /\
    (forall c, In c cs <->
               kp_candidate J kp_max c \/ kd_candidate J zeta_des kd_max c) /\
    py_min (mul (mul lit_2 math_pi) f_n_des :: cs)
      = Returns (omega_n_actual r) /\
    actual_part J zeta_des (omega_n_actual r) = Returns (actual_of r) /\
    r = Build_PDDesignResult J f_n_des zeta_des kp_max kd_max
          (mul (mul lit_2 math_pi) f_n_des) (mul J sq_des)
          (mul (mul (mul lit_2 zeta_des) J) (mul (mul lit_2 math_pi) f_n_des))
          (kp_actual r) (kd_actual r) (omega_n_actual r) (f_n_actual r)
          (zeta_actual r) (t_r_actual r) (t_s_actual r).
Proof.
  rewrite design_stages.
  destruct (le J lit_0); [discriminate|]. cbv zeta. intros H.
  apply bind_returns_inv in H. destruct H as (sq_des & Esq & H).
  apply bind_returns_inv in H. destruct H as (l1 & E1 & H).
  apply bind_returns_inv in H. destruct H as (l2 & E2 & H).
  apply bind_returns_inv in H. destruct H as (wa & Emin & H).
  apply bind_returns_inv in H. destruct H as (a & Ea & H).
  injection H as <-.
  apply kp_stage_returns in E1. destruct E1 as (cs1 & -> & H1).
  apply kd_stage_returns in E2. destruct E2 as (cs2 & -> & H2).
  exists sq_des, (cs1 ++ cs2). cbn [omega_n_actual].
  split; [reflexivity|]. split; [exact Esq|]. split.
  - intros c. rewrite in_app_iff, H1, H2. reflexivity.
  - split; [rewrite <- app_assoc in Emin; exact Emin|].
    split; [|reflexivity].
    unfold actual_of. cbn. destruct a. exact Ea.
Qed.

(** Lines 73-89 on a given omega_n_actual, read off a returned value. *)
Lemma actual_part_returns (J zeta_des wa : num) (a : actual) :
  actual_part J zeta_des wa = Returns a ->
  (exists sq, pow2 wa = Returns sq /\ a_kp a = mul J sq) /\
  a_kd a = mul (mul (mul lit_2 zeta_des) J) wa /\
  div wa (mul lit_2 math_pi) = Returns (a_f_n a) /\
  (if lt lit_0 (a_kp a)
   then exists s, math_sqrt (mul J (a_kp a)) = Returns s /\
                  div (a_kd a) (mul lit_2 s) = Returns (a_zeta a)
   else a_zeta a = lit_0) /\
  (if lt lit_0 wa
   then exists t, div lit_1_8 wa = Returns t /\ a_t_r a = as_metric t /\
          (if lt lit_0 (a_zeta a)
           then exists t', div lit_4 (mul (a_zeta a) wa) = Returns t' /\
                           a_t_s a = as_metric t'
           else a_t_s a = float_inf)
   else a_t_r a = float_inf /\ a_t_s a = float_inf).
Proof.
  unfold actual_part. intros H.
  apply bind_returns_inv in H. destruct H as (sq & Esq & H). cbv zeta in H.
  apply bind_returns_inv in H. destruct H as (fa & Efa & H).
  apply bind_returns_inv in H. destruct H as (za & Eza & H).
  apply bind_returns_inv in H. destruct H as (times & Et & H).
  injection H as <-. cbn [a_kp a_kd a_f_n a_zeta a_t_r a_t_s].
  split; [eauto|]. split; [reflexivity|]. split; [exact Efa|]. split.
  - destruct (lt lit_0 (mul J sq)); [|injection Eza as <-; reflexivity].
    apply bind_returns_inv in Eza. destruct Eza as (s & Es & Eza). eauto.
  - destruct (lt lit_0 wa).
    + apply bind_returns_inv in Et. destruct Et as (t & Etr & Et).
      exists t. split; [exact Etr|].
      destruct (lt lit_0 za).
      * apply bind_returns_inv in Et. destruct Et as (t' & Ets & Et).
        injection Et as <-. cbn. eauto.
      * injection Et as <-. cbn. auto.
    + injection Et as <-. cbn. auto.
Qed.



(** X17: the sentinels of lines 80-89, for any float semantics: in a
    returned result both time metrics are [float("inf")] whenever
    omega_n_actual fails [> 0] (zero, negative or NaN), t_s_actual is
    [float("inf")] whenever zeta_actual fails [> 0], and zeta_actual is the
    literal 0.0 whenever kp_actual fails [> 0]. *)
Theorem sentinel_when_a_guard_fails
    (J f_n_des zeta_des : num) (kp_max kd_max : option num)
    (r : PDDesignResult) :
  design_pd_with_limits J f_n_des zeta_des kp_max kd_max = Returns (Some r) ->
  (lt lit_0 (omega_n_actual r) = false ->
   t_r_actual r = float_inf /\ t_s_actual r = float_inf) /\
  (lt lit_0 (zeta_actual r) = false -> t_s_actual r = float_inf) /\
  (lt lit_0 (kp_actual r) = false -> zeta_actual r = lit_0).
Proof.
  intros H.
  destruct (design_run _ _ _ _ _ _ H) as (_ & _ & _ & _ & _ & _ & Ea & _).
  apply actual_part_returns in Ea.
  cbn [actual_of a_kp a_kd a_zeta a_t_r a_t_s] in Ea.
  destruct Ea as (_ & _ & _ & Hz & Ht).
  split; [|split].
  - intros E. rewrite E in Ht. exact Ht.
  - intros E. destruct (lt lit_0 (omega_n_actual r)).
    + destruct Ht as (t & _ & _ & Hts). rewrite E in Hts. exact Hts.
    + exact (proj2 Ht).
  - intros E. rewrite E in Hz. exact Hz.
Qed.

(** With a zeta_des that fails [> 0], line 65 skips the Kd branch. *)
Lemma kd_stage_skipped (J zeta_des : num) (kd_max : option num)
    (l : list num) :
  lt lit_0 zeta_des = false -> kd_stage J zeta_des kd_max l = Returns l.
Proof.
  intros Hz. unfold kd_stage. destruct kd_max as [k|]; [|reflexivity].
  rewrite Hz, andb_false_r. reflexivity.
Qed.

(** ... so the run is the same for every kd_max, up to the echoed field. *)
Lemma design_whatever_kd_max (Jv f zeta : num)
    (kp kd kd' : option num) (r : PDDesignResult) :
  lt lit_0 zeta = false ->
  design_pd_with_limits Jv f zeta kp kd = Returns (Some r) ->
  exists r',
    design_pd_with_limits Jv f zeta kp kd' = Returns (Some r') /\
    kd_max r' = kd' /\
    omega_n_des r' = omega_n_des r /\
    kp_des r' = kp_des r /\
    kd_des r' = kd_des r /\
    omega_n_actual r' = omega_n_actual r /\
    kp_actual r' = kp_actual r /\
    kd_actual r' = kd_actual r /\
    f_n_actual r' = f_n_actual r /\
    zeta_actual r' = zeta_actual r /\
    t_r_actual r' = t_r_actual r /\
    t_s_actual r' = t_s_actual r.
Proof.
  intros Hz. rewrite !design_stages.
  destruct (le Jv lit_0); [discriminate|]. cbv zeta.
  destruct (pow2 _) as [sq_des|e]; [|discriminate]. cbn [py_bind].
  destruct (kp_stage _ _ _) as [l1|e]; [|discriminate]. cbn [py_bind].
  rewrite !kd_stage_skipped by exact Hz. cbn [py_bind].
  destruct (py_min l1) as [wa|e]; [|discriminate]. cbn [py_bind].
  destruct (actual_part _ _ _) as [a|e]; [|discriminate]. cbn [py_bind].
  intros [= <-]. eexists. split; [reflexivity|]. cbn. repeat split.
Qed.

Lemma guard_failed_no_None (J f_n_des zeta_des : num)
    (kp_max kd_max : option num) :
  le J lit_0 = false ->
  design_pd_with_limits J f_n_des zeta_des kp_max kd_max <> Returns None.
Proof.
  intros HJ. rewrite design_stages, HJ. cbv zeta. intros H.
  repeat (apply bind_returns_inv in H;
          let a := fresh "v" in
          let E := fresh "E" in
          destruct H as (a & E & H)).
  discriminate H.
Qed.

End RunFacts.

(** * Floats with an order: what the bounds do to the frequency *)

Section OrderedFloat.
Context {FO : PyFloat} {FL : PyFloatOrder FO}.

Lemma py_min_cons (x : num) (rest : list num) :
  py_min (x :: rest) = Returns (fold_left pick rest x).
Proof. reflexivity. Qed.

(** No element below the first: [min] returns the first. *)
Lemma min_keeps (rest : list num) (x : num) :
  (forall e, In e rest -> lt e x = false) -> fold_left pick rest x = x.
Proof.
  induction rest as [|y rest IH]; cbn; intros H; [reflexivity|].
  unfold pick at 2. rewrite (H y) by auto. apply IH. auto.
Qed.

Lemma min_stays_below (rest : list num) (m w : num) :
  lt m w = true -> lt (fold_left pick rest m) w = true.
Proof.
  revert m. induction rest as [|y rest IH]; cbn; intros m H; [exact H|].
  apply IH. unfold pick. destruct (lt y m) eqn:E; [|exact H].
  exact (lt_trans _ _ _ E H).
Qed.

(** An element below the first: [min] returns something below the
    first. *)
Lemma min_below (rest : list num) (x e : num) :
  In e rest -> lt e x = true -> lt (fold_left pick rest x) x = true.
Proof.
  induction rest as [|y rest IH]; cbn; [intros []|].
  intros Hin He. unfold pick at 2. destruct (lt y x) eqn:E.
  - apply min_stays_below. exact E.
  - destruct Hin as [->|Hin]; [congruence|]. exact (IH Hin He).
Qed.

(** Among numbers, [min] returns a lower bound of its argument. *)
Lemma min_le (rest : list num) (x : num) :
  le x x = true ->
  (forall e, In e rest -> le e e = true) ->
  le (fold_left pick rest x) (fold_left pick rest x) = true /\
  le (fold_left pick rest x) x = true /\
  forall e, In e rest -> le (fold_left pick rest x) e = true.
Proof.
  revert x. induction rest as [|y rest IH]; cbn; intros x Hx Hrest.
  - auto.
  - assert (Hy : le y y = true) by auto.
    assert (Hp : le (pick x y) (pick x y) = true)
      by (unfold pick; destruct (lt y x); assumption).
    destruct (IH (pick x y) Hp (fun e He => Hrest e (or_intror He)))
      as (Hm & Hmp & Hall).
    assert (Hpx : le (pick x y) x = true /\ le (pick x y) y = true).
    { unfold pick. destruct (lt y x) eqn:E.
      - split; [apply lt_le; exact E | exact Hy].
      - split; [exact Hx | apply not_lt_le; assumption]. }
    destruct Hpx as [Hpx Hpy].
    split; [exact Hm|]. split; [exact (le_trans _ _ _ Hmp Hpx)|].
    intros e [<-|He]; [exact (le_trans _ _ _ Hmp Hpy) | exact (Hall e He)].
Qed.

(** [min] returns its first element or something below it. *)
Lemma min_is_first_or_below (rest : list num) (w : num) :
  fold_left pick rest w = w \/ lt (fold_left pick rest w) w = true.
Proof.
  assert (H : forall rest m, m = w \/ lt m w = true ->
              fold_left pick rest m = w \/ lt (fold_left pick rest m) w = true).
  { clear rest. induction rest as [|y rest IH]; cbn; intros m Hm; [exact Hm|].
    apply IH. unfold pick. destruct (lt y m) eqn:E; [|exact Hm].
    right. destruct Hm as [->|Hm]; [exact E | exact (lt_trans _ _ _ E Hm)]. }
  apply H. left. reflexivity.
Qed.

Lemma candidate_is_a_number (J zeta_des : num) (kp_max kd_max : option num)
    (c : num) :
  kp_candidate J kp_max c \/ kd_candidate J zeta_des kd_max c ->
  lt lit_0 c = true /\ le c c = true.
Proof.
  intros [(k & q & _ & _ & _ & _ & H)|(k & _ & _ & _ & _ & H)];
    (split; [exact H | exact (proj2 (lt_not_nan _ _ H))]).
Qed.


(** C4, amended: for every request that returns a result,
    omega_n_actual <= omega_n_des provided omega_n_des is a number, and
    omega_n_actual = omega_n_des exactly when no frequency a bound
    contributes lies below omega_n_des; a bound contributes its admissible
    frequency only if that frequency passes [> 0]. *)
Theorem frequency_never_raised
    (J f_n_des zeta_des : num) (kp_max kd_max : option num)
    (r : PDDesignResult) :
  design_pd_with_limits J f_n_des zeta_des kp_max kd_max = Returns (Some r) ->
  (le (omega_n_des r) (omega_n_des r) = true ->
   le (omega_n_actual r) (omega_n_des r) = true) /\
  (omega_n_actual r = omega_n_des r <->
   ~ exists c, (kp_candidate J kp_max c \/ kd_candidate J zeta_des kd_max c)
               /\ lt c (omega_n_des r) = true).
Proof.
  intros H.
  destruct (design_run _ _ _ _ _ _ H)
    as (sq_des & cs & HJ & Esq & Hcs & Emin & Ea & Er).
  rewrite py_min_cons in Emin. injection Emin as Emin.
  rewrite Er. cbn [omega_n_des omega_n_actual]. rewrite <- Emin.
  set (w := mul (mul lit_2 math_pi) f_n_des) in *.
  split.
  - intros Hw.
    assert (Hnum : forall e, In e cs -> le e e = true).
    { intros e He. apply Hcs in He.
      exact (proj2 (candidate_is_a_number _ _ _ _ _ He)). }
    exact (proj1 (proj2 (min_le cs w Hw Hnum))).
  - split.
    + intros Heq (c & Hc & Hlt). apply Hcs in Hc.
      pose proof (min_below cs w c Hc Hlt) as Hb.
      rewrite Heq, lt_irrefl in Hb. discriminate Hb.
    + intros Hno. apply min_keeps. intros e He.
      destruct (lt e w) eqn:E; [|reflexivity].
      exfalso. apply Hno. exists e. split; [apply Hcs; exact He | exact E].
Qed.

(** No candidate below omega_n_des: the theoretical design is returned. *)
Lemma no_candidate_below_passes_through
    (J f_n_des zeta_des : num) (kp_max kd_max : option num)
    (r : PDDesignResult) :
  design_pd_with_limits J f_n_des zeta_des kp_max kd_max = Returns (Some r) ->
  (forall c, kp_candidate J kp_max c -> lt c (omega_n_des r) = false) ->
  (forall c, kd_candidate J zeta_des kd_max c ->
             lt c (omega_n_des r) = false) ->
  omega_n_actual r = omega_n_des r /\
  kp_actual r = kp_des r /\
  kd_actual r = kd_des r.
Proof.
  intros H Hkp Hkd.
  destruct (design_run _ _ _ _ _ _ H)
    as (sq_des & cs & HJ & Esq & Hcs & Emin & Ea & Er).
  rewrite py_min_cons in Emin. injection Emin as Emin.
  assert (Ew : omega_n_des r = mul (mul lit_2 math_pi) f_n_des)
    by (rewrite Er; reflexivity).
  assert (Hw : omega_n_actual r = omega_n_des r).
  { rewrite Ew in Hkp, Hkd |- *. rewrite <- Emin. apply min_keeps.
    intros e He. apply Hcs in He. destruct He; auto. }
  split; [exact Hw|].
  apply actual_part_returns in Ea. cbn [actual_of a_kp a_kd] in Ea.
  destruct Ea as ((sq & Esqa & Ekp) & Ekd & _).
  rewrite Hw, Ew in Esqa. rewrite Esq in Esqa. injection Esqa as <-.
  rewrite Hw in Ekd.
  assert (Ekpd : kp_des r = mul J sq_des) by (rewrite Er; reflexivity).
  assert (Ekdd : kd_des r
                 = mul (mul (mul lit_2 zeta_des) J) (omega_n_des r))
    by (rewrite Er; reflexivity).
  rewrite Ekpd, Ekdd. auto.
Qed.


(** X12: a desired frequency that is not positive (negative, zero or NaN)
    is passed through whatever the bounds are: a returned result has
    omega_n_actual = omega_n_des, the theoretical gains, and
    [float("inf")] for both time metrics. *)
Theorem nonpositive_frequency_passes_through
    (J f_n_des zeta_des : num) (kp_max kd_max : option num)
    (r : PDDesignResult) :
  design_pd_with_limits J f_n_des zeta_des kp_max kd_max = Returns (Some r) ->
  lt lit_0 (omega_n_des r) = false ->
  omega_n_actual r = omega_n_des r /\
  kp_actual r = kp_des r /\
  kd_actual r = kd_des r /\
  t_r_actual r = float_inf /\
  t_s_actual r = float_inf.
Proof.
  intros H Hw.
  destruct (design_run _ _ _ _ _ _ H)
    as (sq_des & cs & HJ & Esq & Hcs & Emin & Ea & Er).
  rewrite py_min_cons in Emin. injection Emin as Emin.
  assert (Ew : omega_n_des r = mul (mul lit_2 math_pi) f_n_des)
    by (rewrite Er; reflexivity).
  assert (Heq : omega_n_actual r = omega_n_des r).
  { rewrite Ew, <- Emin. apply min_keeps. intros e He. apply Hcs in He.
    destruct (lt e _) eqn:E; [|reflexivity].
    pose proof (proj1 (candidate_is_a_number _ _ _ _ _ He)) as Hpos.
    rewrite <- Ew in E. rewrite (lt_trans _ _ _ Hpos E) in Hw.
    discriminate Hw. }
  split; [exact Heq|].
  apply actual_part_returns in Ea.
  cbn [actual_of a_kp a_kd a_zeta a_t_r a_t_s] in Ea.
  destruct Ea as ((sq & Esqa & Ekp) & Ekd & _ & _ & Ht).
  rewrite Heq in Esqa, Ekd, Ht. rewrite Hw in Ht.
  rewrite Ew in Esqa. rewrite Esq in Esqa. injection Esqa as <-.
  assert (Ekpd : kp_des r = mul J sq_des) by (rewrite Er; reflexivity).
  assert (Ekdd : kd_des r
                 = mul (mul (mul lit_2 zeta_des) J) (omega_n_des r))
    by (rewrite Er; reflexivity).
  rewrite Ekpd, Ekdd. destruct Ht as [Htr Hts]. auto.
Qed.


End OrderedFloat.

(** * The page, for floats with an order *)

Section OrderedPage.
Context {FO : PyFloat} {FL : PyFloatOrder FO} {UI : PyFloatUI FO}.

(** X14: once the design call has returned, the page starts with the four
    metrics and one message.  The message is the warning exactly when
    [is_limited] holds and the success message exactly when it does not,
    and [is_limited] never holds for a result whose omega_n_actual is
    omega_n_des: the warning is shown only when the frequency was
    lowered. *)
Theorem warning_only_when_frequency_lowered
    (s : sidebar) (r : PDDesignResult) :
  design_pd_with_limits (J_input s) (f_n_input s) (zeta_input s)
    (Some (kp_max_input s)) (Some (kd_max_input s)) = Returns (Some r) ->
  (exists tail outcome,
     main s = (result_head r ++ tail, outcome) /\ Forall is_table tail) /\
  (omega_n_actual r = omega_n_des r -> is_limited r = false) /\
  (In Success (fst (main s)) <-> is_limited r = false) /\
  (In (Warning (Str (f_n_des r)) (Fixed 2 (f_n_actual r))) (fst (main s))
   <-> is_limited r = true).
Proof.
  intros H.
  assert (Hshape : exists tail outcome,
            main s = (result_head r ++ tail, outcome) /\ Forall is_table tail).
  { rewrite (main_after_design s r H).
    destruct (div lit_1_8 (omega_n_des r)) as [t_r_des|e].
    - destruct (div lit_4 (mul (zeta_des r) (omega_n_des r))) as [t_s_des|e].
      + eexists _, _. split; [reflexivity|].
        constructor; [exact I | constructor].
      + exists [], (Raises e). rewrite app_nil_r. split; [reflexivity|constructor].
    - exists [], (Raises e). rewrite app_nil_r. split; [reflexivity|constructor]. }
  split; [exact Hshape|].
  destruct Hshape as (tail & outcome & -> & Htail).
  assert (Hnot : forall e, In e tail -> is_table e)
    by (apply Forall_forall; exact Htail).
  cbn [fst]. split; [|split].
  - intros Heq.
    destruct (design_run _ _ _ _ _ _ H)
      as (sq_des & cs & HJ & Esq & Hcs & Emin & Ea & Er).
    apply actual_part_returns in Ea. cbn [actual_of a_kp a_kd] in Ea.
    destruct Ea as ((sq & Esqa & Ekp) & Ekd & _).
    assert (Ew : omega_n_des r = mul (mul lit_2 math_pi) (f_n_input s))
      by (rewrite Er; reflexivity).
    assert (Ekpd : kp_des r = mul (J_input s) sq_des)
      by (rewrite Er; reflexivity).
    assert (Ekdd : kd_des r
                   = mul (mul (mul lit_2 (zeta_input s)) (J_input s))
                       (omega_n_des r))
      by (rewrite Er; reflexivity).
    rewrite Heq, Ew, Esq in Esqa. injection Esqa as <-.
    rewrite Heq in Ekd.
    unfold is_limited. rewrite Ekp, Ekpd, Ekd, Ekdd, !lt_irrefl. reflexivity.
  - split.
    + intros Hin. apply in_app_or in Hin. destruct Hin as [Hin|Hin].
      * unfold result_head in Hin. cbn [In] in Hin.
        destruct Hin as [Hin|[Hin|[Hin|[Hin|[Hin|[]]]]]]; try discriminate Hin.
        destruct (is_limited r); [discriminate Hin | reflexivity].
      * exact (False_ind _ (Hnot _ Hin)).
    + intros E. apply in_or_app. left.
      unfold result_head. rewrite E. cbn. auto 10.
  - split.
    + intros Hin. apply in_app_or in Hin. destruct Hin as [Hin|Hin].
      * unfold result_head in Hin. cbn [In] in Hin.
        destruct Hin as [Hin|[Hin|[Hin|[Hin|[Hin|[]]]]]]; try discriminate Hin.
        destruct (is_limited r); [reflexivity | discriminate Hin].
      * exact (False_ind _ (Hnot _ Hin)).
    + intros E. apply in_or_app. left.
      unfold result_head. rewrite E. cbn. auto 10.
Qed.

End OrderedPage.

(** * IEEE doubles: the order laws, zero and finiteness *)

Module SFOrder.

Ltac cmp_cases :=
  repeat match goal with
         | |- context [BinInt.Z.compare ?a ?b] =>
             destruct (BinInt.Z.compare_spec a b)
         | H : context [BinInt.Z.compare ?a ?b] |- _ =>
             destruct (BinInt.Z.compare_spec a b)
         | |- context [Pos.compare_cont Eq ?a ?b] =>
             change (Pos.compare_cont Eq a b) with (Pos.compare a b);
             destruct (Pos.compare_spec a b)
         | H : context [Pos.compare_cont Eq ?a ?b] |- _ =>
             change (Pos.compare_cont Eq a b) with (Pos.compare a b) in H;
             destruct (Pos.compare_spec a b)
         end.

(** Every case of [SFcompare], down to the comparisons of exponents and
    mantissas. *)
Ltac sf_cases :=
  repeat match goal with
         | x : spec_float |- _ => destruct x
         | s : bool |- _ => destruct s
         end;
  cbn in *; try discriminate; try reflexivity;
  cmp_cases; cbn in *; subst; try discriminate; try reflexivity; try lia.

Lemma sf_lt_irrefl (x : spec_float) : SFltb x x = false.
Proof. unfold SFltb. sf_cases. Qed.

Lemma sf_lt_trans (x y z : spec_float) :
  SFltb x y = true -> SFltb y z = true -> SFltb x z = true.
Proof. unfold SFltb. sf_cases. Qed.

Lemma sf_lt_le (x y : spec_float) : SFltb x y = true -> SFleb x y = true.
Proof. unfold SFltb, SFleb. sf_cases. Qed.

Lemma sf_le_trans (x y z : spec_float) :
  SFleb x y = true -> SFleb y z = true -> SFleb x z = true.
Proof. unfold SFleb. sf_cases. Qed.

Lemma sf_le_not_lt (x y : spec_float) :
  SFleb x y = true -> SFltb y x = false.
Proof. unfold SFltb, SFleb. sf_cases. Qed.

Lemma sf_not_lt_le (x y : spec_float) :
  SFleb x x = true -> SFleb y y = true -> SFltb y x = false ->
  SFleb x y = true.
Proof. unfold SFltb, SFleb. sf_cases. Qed.

Lemma sf_lt_not_nan (x y : spec_float) :
  SFltb x y = true -> SFleb x x = true /\ SFleb y y = true.
Proof. unfold SFltb, SFleb. intros H. split; revert H; sf_cases. Qed.

End SFOrder.

#[export] Instance Binary64Order : PyFloatOrder Binary64.
Proof.
  constructor; cbn [lt le Binary64]; intros *;
    rewrite ?FloatAxioms.ltb_spec, ?FloatAxioms.leb_spec.
  - apply SFOrder.sf_lt_irrefl.
  - apply SFOrder.sf_lt_trans.
  - apply SFOrder.sf_lt_le.
  - apply SFOrder.sf_le_trans.
  - apply SFOrder.sf_le_not_lt.
  - apply SFOrder.sf_not_lt_le.
  - apply SFOrder.sf_lt_not_nan.
Qed.

Module B64Facts.

Local Open Scope float_scope.

Lemma Prim2SF_zero : Prim2SF 0 = S754_zero false.
Proof. vm_compute. reflexivity. Qed.

Lemma Prim2SF_infinity : Prim2SF infinity = S754_infinity false.
Proof. vm_compute. reflexivity. Qed.

Lemma is_zero_iff (x : float) : B64.is_zero x = true <-> B64.sf_zero (Prim2SF x).
Proof.
  unfold B64.is_zero. rewrite FloatAxioms.eqb_spec, Prim2SF_zero. unfold SFeqb.
  destruct (Prim2SF x) as [s|s| |s m e]; try destruct s; cbn;
    intuition discriminate.
Qed.

Lemma is_finite_iff (x : float) :
  PrimFloat.is_finite x = true <-> B64.sf_finite (Prim2SF x).
Proof.
  unfold PrimFloat.is_finite, PrimFloat.is_nan, PrimFloat.is_infinity.
  rewrite !FloatAxioms.eqb_spec, FloatAxioms.abs_spec, Prim2SF_infinity. unfold SFeqb.
  destruct (Prim2SF x) as [s|s| |s m e]; try destruct s; cbn;
    try (intuition discriminate).
  all: change (Pos.compare_cont Eq m m) with (Pos.compare m m);
       rewrite BinInt.Z.compare_refl, Pos.compare_refl; cbn; intuition.
Qed.

(** Zero times a finite double is zero. *)
Lemma mul_zero_l (x y : float) :
  B64.is_zero x = true -> PrimFloat.is_finite y = true ->
  B64.is_zero (x * y) = true.
Proof.
  rewrite !is_zero_iff, is_finite_iff, FloatAxioms.mul_spec. unfold SF64mul.
  destruct (Prim2SF x), (Prim2SF y); cbn; tauto.
Qed.

Lemma mul_zero_r (x y : float) :
  PrimFloat.is_finite x = true -> B64.is_zero y = true ->
  B64.is_zero (x * y) = true.
Proof.
  rewrite !is_zero_iff, is_finite_iff, FloatAxioms.mul_spec. unfold SF64mul.
  destruct (Prim2SF x), (Prim2SF y); cbn; tauto.
Qed.

Lemma zero_is_finite (x : float) :
  B64.is_zero x = true -> PrimFloat.is_finite x = true.
Proof.
  rewrite is_zero_iff, is_finite_iff. destruct (Prim2SF x); cbn; tauto.
Qed.

Lemma zero_not_positive (x : float) :
  B64.is_zero x = true -> (0 <? x) = false.
Proof.
  rewrite is_zero_iff, FloatAxioms.ltb_spec, Prim2SF_zero. unfold SFltb.
  destruct (Prim2SF x) as [s|s| |s m e]; cbn; tauto.
Qed.

(** A double above zero and below another double is finite. *)
Lemma between_is_finite (c w : float) :
  (0 <? c) = true -> (c <? w) = true -> PrimFloat.is_finite c = true.
Proof.
  rewrite is_finite_iff, !FloatAxioms.ltb_spec, Prim2SF_zero. unfold SFltb.
  destruct (Prim2SF c) as [s|s| |s m e], (Prim2SF w) as [s'|s'| |s' m' e'];
    try destruct s; try destruct s'; cbn; try discriminate; tauto.
Qed.

End B64Facts.

(** * IEEE doubles: claims and properties settled on the code as it runs *)

Module OnDoubles.

#[local] Existing Instance Binary64 | 0.
#[local] Existing Instance Binary64UI | 0.
#[local] Existing Instance Binary64Order | 0.

Import Binary64Model.
Local Open Scope float_scope.

(** A request can end in an exception instead of a result: with
    f_n_des = 1e200 the square of omega_n_des overflows and line 52 raises
    OverflowError.  This is why the statements about "the result" take the
    returned result as a hypothesis. *)
Example a_request_can_raise :
  design 1 1e200 1 (Some 500) (Some 5) = Raises OverflowError /\
  design 1 1e200 1 None None = Raises OverflowError.
Proof. split; vm_compute; reflexivity. Qed.



(** C4, as stated, fails on doubles.  With J = 1e200 and kp_max = 1e-200 the
    admissible frequency sqrt(kp_max / J) is 0.0, below omega_n_des, yet
    omega_n_actual = omega_n_des: line 61 drops a frequency that fails
    [> 0].  And for a NaN f_n_des, omega_n_actual <= omega_n_des is
    false. *)
Lemma dropped_bound_and_nan_frequency :
  (exists r : result,
     design 1e200 12 1 (Some 1e-200) None = Returns (Some r) /\
     B64.math_sqrt (1e-200 / 1e200) = Returns 0 /\
     (0 <? omega_n_des r) = true /\
     omega_n_actual r = omega_n_des r) /\
  (exists r : result,
     design 1 nan 1 (Some 500) (Some 5) = Returns (Some r) /\
     (omega_n_actual r <=? omega_n_des r) = false).
Proof.
  repeat split; eexists; (split; [vm_compute; reflexivity|]);
    vm_compute; repeat split.
Qed.

(** C6, as stated, fails on doubles: with zeta_des = 0 and f_n_des = 1e308
    the product 2 pi f_n_des overflows to infinity and kd_des is
    0.0 * infinity, a NaN, not 0. *)
Lemma zero_damping_with_infinite_frequency :
  exists r : result,
    design 1 1e308 0 (Some 500) (Some 5) = Returns (Some r) /\
    omega_n_des r = infinity /\
    PrimFloat.is_nan (kd_des r) = true /\
    B64.is_zero (kd_des r) = false.
Proof.
  eexists. split; [vm_compute; reflexivity|]. vm_compute. repeat split.
Qed.




(** At the page's default request (12 Hz, zeta 1.5, bounds 500 and 5) every
    actuator of the catalogue gets a zeta_actual within 1e-9 of zeta_des:
    away from underflow and overflow the loss is rounding only. *)
Example damping_ratio_on_the_catalogue :
  Forall (fun entry : String.string * float =>
            exists r : result,
              design (snd entry) 12 1.5 (Some 500) (Some 5)
                = Returns (Some r) /\
              B64.between (1.5 - 1e-9) (zeta_actual r) (1.5 + 1e-9) = true)
         Binary64Page.ACTUATORS.
Proof.
  repeat constructor;
    (eexists; split; [vm_compute; reflexivity | vm_compute; reflexivity]).
Qed.

(** ** The amended claims at the doubles of scenarios A and B *)



Lemma frequency_never_raised_witness :
  exists r : result,
    design 0.0231825 12 1.5 (Some 500) (Some 5) = Returns (Some r) /\
    ((omega_n_des r <=? omega_n_des r) = true ->
     (omega_n_actual r <=? omega_n_des r) = true) /\
    (omega_n_actual r = omega_n_des r <->
     ~ exists c, (kp_candidate 0.0231825 (Some 500) c \/
                  kd_candidate 0.0231825 1.5 (Some 5) c)
                 /\ (c <? omega_n_des r) = true).
Proof.
  eexists. split; [vm_compute; reflexivity|].
  apply (@frequency_never_raised Binary64 Binary64Order
           0.0231825 12 1.5 (Some 500) (Some 5)).
  vm_compute. reflexivity.
Defined.




Lemma nonpositive_frequency_passes_through_witness :
  exists r : result,
    design 0.0231825 (-12) 1.5 (Some 500) (Some 5) = Returns (Some r) /\
    (0 <? omega_n_des r) = false /\
    omega_n_actual r = omega_n_des r /\
    kp_actual r = kp_des r /\
    kd_actual r = kd_des r /\
    t_r_actual r = infinity /\
    t_s_actual r = infinity.
Proof.
  eexists. split; [vm_compute; reflexivity|].
  split; [vm_compute; reflexivity|].
  apply (@nonpositive_frequency_passes_through Binary64 Binary64Order
           0.0231825 (-12) 1.5 (Some 500) (Some 5));
    vm_compute; reflexivity.
Defined.

Lemma warning_only_when_frequency_lowered_witness :
  let s := @Build_sidebar Binary64 "4310" 0.0231825 12 1.5 500 5 in
  exists r : result,
    design (J_input s) (f_n_input s) (zeta_input s)
      (Some (kp_max_input s)) (Some (kd_max_input s)) = Returns (Some r) /\
    (exists tail outcome,
       Binary64Page.main s = (result_head r ++ tail, outcome) /\
       Forall is_table tail) /\
    (omega_n_actual r = omega_n_des r -> is_limited r = false) /\
    (In Success (fst (Binary64Page.main s)) <-> is_limited r = false) /\
    (In (Warning (Str (f_n_des r)) (Fixed 2 (f_n_actual r)))
        (fst (Binary64Page.main s))
     <-> is_limited r = true).
Proof.
  intros s. eexists. split; [vm_compute; reflexivity|].
  apply (@warning_only_when_frequency_lowered
           Binary64 Binary64Order Binary64UI s).
  vm_compute. reflexivity.
Defined.

Lemma sentinel_when_a_guard_fails_witness :
  exists r : result,
    design 0.0231825 0 1.5 (Some 500) (Some 5) = Returns (Some r) /\
    ((0 <? omega_n_actual r) = false ->
     t_r_actual r = infinity /\ t_s_actual r = infinity) /\
    ((0 <? zeta_actual r) = false -> t_s_actual r = infinity) /\
    ((0 <? kp_actual r) = false -> zeta_actual r = 0).
Proof.
  eexists. split; [vm_compute; reflexivity|].
  apply (@sentinel_when_a_guard_fails Binary64
           0.0231825 0 1.5 (Some 500) (Some 5)).
  vm_compute. reflexivity.
Defined.

Lemma main_propagates_design_errors_witness :
  let s := @Build_sidebar Binary64 "6408" 0.0390686 1e200 1.5 500 5 in
  design (J_input s) (f_n_input s) (zeta_input s)
    (Some (kp_max_input s)) (Some (kd_max_input s)) = Raises OverflowError /\
  Binary64Page.main s = ([], Raises OverflowError).
Proof.
  intros s. split; [vm_compute; reflexivity|].
  apply (@main_propagates_design_errors Binary64 Binary64UI s OverflowError).
  vm_compute. reflexivity.
Defined.

End OnDoubles.

(** * IEEE doubles, however [x ** 2] is rounded *)

Lemma Binary64WithOrder (square : float -> py float) :
  PyFloatOrder (Binary64With square).
Proof.
  constructor; cbn [lt le Binary64With]; intros *;
    rewrite ?FloatAxioms.ltb_spec, ?FloatAxioms.leb_spec.
  - apply SFOrder.sf_lt_irrefl.
  - apply SFOrder.sf_lt_trans.
  - apply SFOrder.sf_lt_le.
  - apply SFOrder.sf_le_trans.
  - apply SFOrder.sf_le_not_lt.
  - apply SFOrder.sf_not_lt_le.
  - apply SFOrder.sf_lt_not_nan.
Qed.

(** A key that [list(d.keys())] shows is found by [d[k]]. *)
Lemma dict_get_listed {V : Type} (d : list (String.string * V))
    (k : String.string) :
  In k (dict_keys d) -> exists v, dict_get d k = Some v.
Proof.
  induction d as [|[k' v] d IH]; cbn; [intros []|].
  intros [<-|Hin].
  - rewrite String.eqb_refl. eauto.
  - destruct (String.eqb k k'); [eauto | exact (IH Hin)].
Qed.

Section AnySquare.
Variable square : float -> py float.

Local Open Scope float_scope.

Local Notation "'F'" := (Binary64With square).
Local Notation "'U'" := (Binary64UIWith square).

(** C6, amended: on doubles, however [x ** 2] is rounded, for a zeta_des
    equal to zero and a request that returns a result, the Kd bound imposes
    no constraint: with any other kd_max the call returns the same design;
    omega_n_actual is omega_n_des or the frequency the Kp bound
    contributes; and kd_des and kd_actual are zero when J and omega_n_des
    are finite. *)
Theorem zero_damping_skips_the_kd_bound
    (Jv f zeta : float) (kp kd : option float) (r : @PDDesignResult F) :
  B64.is_zero zeta = true ->
  @design_pd_with_limits F Jv f zeta kp kd = Returns (Some r) ->
  (forall kd' : option float,
     exists r' : @PDDesignResult F,
       @design_pd_with_limits F Jv f zeta kp kd' = Returns (Some r') /\
       kd_max r' = kd' /\
       omega_n_des r' = omega_n_des r /\
       kp_des r' = kp_des r /\
       kd_des r' = kd_des r /\
       omega_n_actual r' = omega_n_actual r /\
       kp_actual r' = kp_actual r /\
       kd_actual r' = kd_actual r /\
       f_n_actual r' = f_n_actual r /\
       zeta_actual r' = zeta_actual r /\
       t_r_actual r' = t_r_actual r /\
       t_s_actual r' = t_s_actual r) /\
  (omega_n_actual r = omega_n_des r \/
   @kp_candidate F Jv kp (omega_n_actual r)) /\
  (PrimFloat.is_finite Jv = true ->
   PrimFloat.is_finite (omega_n_des r) = true ->
   B64.is_zero (kd_des r) = true /\ B64.is_zero (kd_actual r) = true).
Proof.
  intros Hzero H.
  pose proof (B64Facts.zero_not_positive zeta Hzero) as Hz.
  split; [intros kd'; exact (@design_whatever_kd_max F Jv f zeta kp kd kd' r Hz H)|].
  destruct (@design_run F _ _ _ _ _ _ H)
    as (sq_des & cs & HJ & Esq & Hcs & Emin & Ea & Er).
  assert (Ew : omega_n_des r = 2 * B64.math_pi * f)
    by (rewrite Er; reflexivity).
  assert (Ekdd : kd_des r = 2 * zeta * Jv * omega_n_des r)
    by (rewrite Er; reflexivity).
  cbn [mul lit_2 math_pi Binary64With] in Emin. rewrite <- Ew in Emin.
  assert (Hkp : forall c, In c cs -> @kp_candidate F Jv kp c).
  { intros c Hc. apply Hcs in Hc. destruct Hc as [Hc|Hc]; [exact Hc|].
    destruct Hc as (k & _ & _ & Hpos & _).
    cbn [lt lit_0 Binary64With] in Hpos. congruence. }
  assert (Hcases : omega_n_actual r = omega_n_des r \/
                   (@kp_candidate F Jv kp (omega_n_actual r) /\
                    (omega_n_actual r <? omega_n_des r) = true)).
  { pose proof (py_min_In _ _ Emin) as Hin.
    rewrite (@py_min_cons F) in Emin. injection Emin as Emin.
    assert (Hm : omega_n_actual r = omega_n_des r \/
                 (omega_n_actual r <? omega_n_des r) = true)
      by (rewrite <- Emin;
          exact (@min_is_first_or_below F (Binary64WithOrder square)
                   cs (omega_n_des r))).
    destruct Hm as [Hf|Hb].
    - left. exact Hf.
    - right. split; [|exact Hb].
      destruct Hin as [Hin|Hin]; [|exact (Hkp _ Hin)].
      exfalso. rewrite <- Hin in Hb.
      pose proof (@lt_irrefl F (Binary64WithOrder square) (omega_n_des r))
        as Hirr.
      cbn [lt Binary64With] in Hirr. congruence. }
  split; [destruct Hcases as [Hc|[Hc _]]; auto|].
  intros HJfin Hwfin.
  apply actual_part_returns in Ea. cbn [actual_of a_kd] in Ea.
  destruct Ea as (_ & Ekd & _).
  cbn [mul lit_2 Binary64With] in Ekd.
  assert (Hd : B64.is_zero (2 * zeta * Jv) = true).
  { apply B64Facts.mul_zero_l; [|exact HJfin].
    apply B64Facts.mul_zero_r; [reflexivity | exact Hzero]. }
  split.
  - rewrite Ekdd. apply B64Facts.mul_zero_l; assumption.
  - rewrite Ekd. apply B64Facts.mul_zero_l; [exact Hd|].
    destruct Hcases as [->|[Hc Hb]]; [exact Hwfin|].
    apply B64Facts.between_is_finite with (omega_n_des r); [|exact Hb].
    destruct Hc as (k & q & _ & _ & _ & _ & Hpos). exact Hpos.
Qed.

(** X13: on doubles, however [x ** 2] is rounded: once the design call has
    returned a result, the page fails at the table whenever the frequency
    entered is zero, and whenever the damping ratio entered is zero and
    omega_n_des is finite: the four metrics and the message are shown, then
    an unguarded division of the table raises ZeroDivisionError. *)
Theorem table_fails_on_zero_inputs
    (s : @sidebar F) (r : @PDDesignResult F) :
  @design_pd_with_limits F (J_input s) (f_n_input s) (zeta_input s)
    (Some (kp_max_input s)) (Some (kd_max_input s)) = Returns (Some r) ->
  B64.is_zero (f_n_input s) = true \/
  (B64.is_zero (zeta_input s) = true /\
   PrimFloat.is_finite (omega_n_des r) = true) ->
  @main F U s = (@result_head F U r, Raises ZeroDivisionError).
Proof.
  intros H Hz.
  rewrite (@main_after_design F U s r H).
  destruct (@design_run F _ _ _ _ _ _ H)
    as (sq_des & cs & HJ & Esq & Hcs & Emin & Ea & Er).
  assert (Ew : omega_n_des r = 2 * B64.math_pi * f_n_input s)
    by (rewrite Er; reflexivity).
  assert (Ez : zeta_des r = zeta_input s) by (rewrite Er; reflexivity).
  cbn [div Binary64With lit_1_8 lit_4 mul]. unfold B64.div.
  destruct (B64.is_zero (omega_n_des r)) eqn:E0; [reflexivity|].
  destruct Hz as [Hf|[Hzeta Hfin]].
  - exfalso. rewrite Ew in E0.
    rewrite B64Facts.mul_zero_r in E0; [discriminate E0| reflexivity | exact Hf].
  - rewrite Ez, B64Facts.mul_zero_l by assumption. reflexivity.
Qed.

(** X15: every model the select box offers has an entry in [ACTUATORS], so
    [ACTUATORS[selected_model]] never fails, and the inertia found is a
    positive double: with it the test [J <= 0] fails and the design never
    returns None, whatever the other four arguments are and however
    [x ** 2] is rounded. *)
Theorem every_listed_actuator_passes_the_guard (model : String.string) :
  In model (dict_keys (@ACTUATORS F U)) ->
  exists J0 : float,
    dict_get (@ACTUATORS F U) model = Some J0 /\
    (0 <? J0) = true /\
    forall (f zeta : float) (kp kd : option float),
      @design_pd_with_limits F J0 f zeta kp kd <> Returns None.
Proof.
  intros Hin.
  assert (H : exists J0, dict_get (@ACTUATORS F U) model = Some J0 /\
                         (0 <? J0) = true /\ (J0 <=? 0) = false).
  { unfold ACTUATORS, dict_keys in *. cbn in Hin.
    destruct Hin as [<-|[<-|[<-|[<-|[<-|[]]]]]];
      eexists; (split; [vm_compute; reflexivity|]); split; reflexivity. }
  destruct H as (J0 & Hget & Hpos & Hle).
  exists J0. split; [exact Hget|]. split; [exact Hpos|].
  intros f zeta kp kd. apply (@guard_failed_no_None F). exact Hle.
Qed.

End AnySquare.

(** The three theorems at [B64.pow2], the square the runs above use. *)
Module AtCorrectlyRoundedSquare.

Import Binary64Model.
Local Open Scope float_scope.

Lemma zero_damping_skips_the_kd_bound_witness :
  exists r : result,
    B64.is_zero 0 = true /\
    design 0.0231825 12 0 (Some 500) (Some 5) = Returns (Some r) /\
    (forall kd' : option float,
       exists r' : result,
         design 0.0231825 12 0 (Some 500) kd' = Returns (Some r') /\
         kd_max r' = kd' /\
         omega_n_des r' = omega_n_des r /\
         kp_des r' = kp_des r /\
         kd_des r' = kd_des r /\
         omega_n_actual r' = omega_n_actual r /\
         kp_actual r' = kp_actual r /\
         kd_actual r' = kd_actual r /\
         f_n_actual r' = f_n_actual r /\
         zeta_actual r' = zeta_actual r /\
         t_r_actual r' = t_r_actual r /\
         t_s_actual r' = t_s_actual r) /\
    (omega_n_actual r = omega_n_des r \/
     @kp_candidate Binary64 0.0231825 (Some 500) (omega_n_actual r)) /\
    (PrimFloat.is_finite 0.0231825 = true ->
     PrimFloat.is_finite (omega_n_des r) = true ->
     B64.is_zero (kd_des r) = true /\ B64.is_zero (kd_actual r) = true).
Proof.
  eexists. split; [reflexivity|].
  split; [vm_compute; reflexivity|].
  apply (zero_damping_skips_the_kd_bound B64.pow2
           0.0231825 12 0 (Some 500) (Some 5));
    [reflexivity | vm_compute; reflexivity].
Defined.

Lemma table_fails_on_zero_inputs_witness :
  let s := @Build_sidebar Binary64 "6408" 0.0390686 12 0 500 5 in
  exists r : result,
    design (J_input s) (f_n_input s) (zeta_input s)
      (Some (kp_max_input s)) (Some (kd_max_input s)) = Returns (Some r) /\
    (B64.is_zero (f_n_input s) = true \/
     (B64.is_zero (zeta_input s) = true /\
      PrimFloat.is_finite (omega_n_des r) = true)) /\
    Binary64Page.main s
      = (@result_head Binary64 Binary64UI r, Raises ZeroDivisionError).
Proof.
  intros s. eexists.
  split; [vm_compute; reflexivity|].
  split; [right; split; vm_compute; reflexivity|].
  apply (table_fails_on_zero_inputs B64.pow2 s);
    [vm_compute; reflexivity | right; split; vm_compute; reflexivity].
Defined.

Lemma every_listed_actuator_passes_the_guard_witness :
  In "8116"%string (dict_keys Binary64Page.ACTUATORS) /\
  exists J0 : float,
    dict_get Binary64Page.ACTUATORS "8116" = Some J0 /\
    (0 <? J0) = true /\
    forall (f zeta : float) (kp kd : option float),
      design J0 f zeta kp kd <> Returns None.
Proof.
  assert (Hin : In "8116"%string (dict_keys Binary64Page.ACTUATORS))
    by (cbn; auto 10).
  split; [exact Hin|].
  apply (every_listed_actuator_passes_the_guard B64.pow2 "8116" Hin).
Defined.

(** The page nobody has touched, on doubles: model 6408, with the warning
    (the default bounds clamp the default request). *)
Example untouched_page :
  exists s : Binary64Page.sidebar,
    @untouched_sidebar Binary64 Binary64UI = Some s /\
    selected_model s = "6408"%string /\
    J_input s = 0.0390686 /\
    snd (Binary64Page.main s) = Returns tt /\
    List.length (fst (Binary64Page.main s)) = 6%nat /\
    exists shown_des shown_actual,
      nth_error (fst (Binary64Page.main s)) 4
        = Some (Warning shown_des shown_actual).
Proof.
  eexists. split; [vm_compute; reflexivity|].
  vm_compute. repeat split. eauto.
Qed.

End AtCorrectlyRoundedSquare.

(** * Appendix: the idealisation over the reals

    Not the program's arithmetic: nothing rounds, underflows or overflows
    here, so nothing below is a statement about a run on doubles. *)

Module ExactFacts.

Import ExactModel.
Local Open Scope R_scope.

Lemma lt_true (x y : R) : x < y -> Ex.lt x y = true.
Proof. intros H; unfold Ex.lt; destruct (Rlt_dec x y); [reflexivity | contradiction]. Qed.

Lemma lt_false (x y : R) : ~ x < y -> Ex.lt x y = false.
Proof. intros H; unfold Ex.lt; destruct (Rlt_dec x y); [contradiction | reflexivity]. Qed.

Lemma le_false (x y : R) : y < x -> Ex.le x y = false.
Proof. intros H; unfold Ex.le; destruct (Rle_dec x y); [lra | reflexivity]. Qed.

Lemma div_returns (x y : R) : y <> 0 -> Ex.div x y = Returns (x / y).
Proof. intros H; unfold Ex.div; destruct (Req_dec_T y 0); [contradiction | reflexivity]. Qed.

Lemma sqrt_returns (x : R) : 0 <= x -> Ex.math_sqrt x = Returns (sqrt x).
Proof. intros H; unfold Ex.math_sqrt; destruct (Rlt_dec x 0); [lra | reflexivity]. Qed.

Lemma div_pos (x y : R) : 0 < x -> 0 < y -> 0 < x / y.
Proof. intros Hx Hy; apply Rdiv_lt_0_compat; assumption. Qed.

Lemma sqrt_square_pos (J w : R) : 0 < J -> 0 < w -> sqrt (J * (J * (w * w))) = J * w.
Proof.
  intros HJ Hw.
  replace (J * (J * (w * w))) with ((J * w) * (J * w)) by ring.
  apply sqrt_square. apply Rlt_le, Rmult_lt_0_compat; assumption.
Qed.

Lemma sqrt_square_neg (J w : R) : 0 < J -> w < 0 -> sqrt (J * (J * (w * w))) = J * - w.
Proof.
  intros HJ Hw.
  replace (J * (J * (w * w))) with ((J * - w) * (J * - w)) by ring.
  apply sqrt_square. apply Rlt_le, Rmult_lt_0_compat; lra.
Qed.

(** Over the reals, for a positive inertia every operation returns and the
    result is [value]. *)
Theorem design_value (J f zeta : R) (kp_max kd_max : option R) :
  0 < J ->
  design J f zeta kp_max kd_max = Returns (Some (value J f zeta kp_max kd_max)).
Proof.
  intros HJ.
  unfold design, design_pd_with_limits. cbn.
  rewrite (le_false J 0 HJ).
  (* Kp stage *)
  match goal with |- py_bind ?c _ = _ =>
    replace c with (Returns ((2 * PI * f) :: opt_list (kp_limit J kp_max)))
  end.
  2:{ unfold kp_limit. destruct kp_max as [k|]; [|reflexivity].
      destruct (Rlt_dec 0 k) as [Hk|Hk].
      - rewrite (lt_true _ _ Hk), div_returns by lra. cbn.
        rewrite sqrt_returns by (apply Rlt_le, div_pos; assumption). cbn.
        rewrite lt_true by (apply sqrt_lt_R0, div_pos; assumption). reflexivity.
      - rewrite (lt_false _ _ Hk). reflexivity. }
  cbn [py_bind].
  (* Kd stage *)
  match goal with |- py_bind ?c _ = _ =>
    replace c with (Returns (candidates J f zeta kp_max kd_max))
  end.
  2:{ unfold candidates, kd_limit. destruct kd_max as [k|]; [|now rewrite app_nil_r].
      destruct (Rlt_dec 0 k) as [Hk|Hk].
      - rewrite (lt_true _ _ Hk).
        destruct (Rlt_dec 0 zeta) as [Hz|Hz].
        + rewrite (lt_true _ _ Hz). cbn.
          assert (Hd : 0 < 2 * zeta * J) by (apply Rmult_lt_0_compat; lra).
          rewrite div_returns by lra. cbn.
          rewrite lt_true by (apply div_pos; assumption). reflexivity.
        + rewrite (lt_false _ _ Hz). cbn. now rewrite app_nil_r.
      - rewrite (lt_false _ _ Hk). cbn. now rewrite app_nil_r. }
  cbn [py_bind].
  (* min(omega_n_limits) *)
  match goal with |- py_bind ?c _ = _ =>
    replace c with (Returns (omega_capped J f zeta kp_max kd_max))
  end.
  2:{ unfold candidates, omega_capped, cap, py_min.
      destruct (kp_limit J kp_max) as [a|], (kd_limit J zeta kd_max) as [b|];
        cbn; unfold Ex.lt;
        repeat match goal with
               | |- context [Rlt_dec ?x ?y] => destruct (Rlt_dec x y)
               end; first [reflexivity | contradiction]. }
  cbn [py_bind].
  unfold value.
  set (wa := omega_capped J f zeta kp_max kd_max).
  assert (HPI : 0 < 2 * PI) by (pose proof PI_RGT_0; lra).
  rewrite div_returns by lra. cbn [py_bind].
  (* zeta_actual *)
  match goal with |- py_bind ?c _ = _ =>
    replace c with (Returns (zeta_recomputed zeta wa))
  end.
  2:{ unfold zeta_recomputed.
      destruct (Rlt_dec 0 wa) as [Hp|Hp]; [|destruct (Rlt_dec wa 0) as [Hn|Hn]].
      - assert (Hw : 0 < J * wa) by (apply Rmult_lt_0_compat; assumption).
        rewrite lt_true by nra.
        rewrite sqrt_returns by nra. cbn [py_bind].
        rewrite sqrt_square_pos by assumption.
        rewrite div_returns by lra. f_equal. field. lra.
      - assert (Hw : 0 < J * - wa) by (apply Rmult_lt_0_compat; lra).
        rewrite lt_true by nra.
        rewrite sqrt_returns by nra. cbn [py_bind].
        rewrite sqrt_square_neg by assumption.
        rewrite div_returns by lra. f_equal. field. lra.
      - assert (wa = 0) as -> by lra.
        rewrite lt_false by lra. reflexivity. }
  cbn [py_bind].
  (* t_r_actual, t_s_actual *)
  destruct (Rlt_dec 0 wa) as [Hp|Hp].
  - rewrite (lt_true _ _ Hp), div_returns by lra. cbn [py_bind].
    destruct (Rlt_dec 0 (zeta_recomputed zeta wa)) as [Hz|Hz].
    + rewrite (lt_true _ _ Hz).
      rewrite div_returns by (apply Rgt_not_eq, Rmult_lt_0_compat; assumption).
      reflexivity.
    + rewrite (lt_false _ _ Hz). reflexivity.
  - rewrite (lt_false _ _ Hp). reflexivity.
Qed.

(** Over the reals the guards do their work: for J > 0 no operation of the
    function raises, the time metrics are [float("inf")] when omega_n_actual
    is zero, and the settling time is [float("inf")] when zeta_actual is
    zero.  On doubles the product of two positive factors can still be
    0.0. *)
Lemma time_metrics_guarded (J f zeta : R) (kp_max kd_max : option R) :
  0 < J ->
  exists r : result,
    design J f zeta kp_max kd_max = Returns (Some r) /\
    (omega_n_actual r = 0 -> t_r_actual r = Ex.Inf /\ t_s_actual r = Ex.Inf) /\
    (zeta_actual r = 0 -> t_s_actual r = Ex.Inf).
Proof.
  intros HJ. exists (value J f zeta kp_max kd_max).
  split; [apply design_value; exact HJ|].
  cbn [value omega_n_actual zeta_actual t_r_actual t_s_actual].
  set (wa := omega_capped J f zeta kp_max kd_max).
  split.
  - intros H. destruct (Rlt_dec 0 wa) as [Hp|Hp]; [|split; reflexivity].
    exfalso. revert H Hp. generalize wa. intros x H Hp.
    change (x = 0%R) in H. lra.
  - intros H. destruct (Rlt_dec 0 wa); [|reflexivity].
    destruct (Rlt_dec 0 (zeta_recomputed zeta wa)) as [Hz|Hz]; [|reflexivity].
    exfalso. revert H Hz. generalize (zeta_recomputed zeta wa). intros x H Hz.
    change (x = 0%R) in H. lra.
Qed.

End ExactFacts.
